(** * The location-enrichment pipeline of [app/(tabs)/index.tsx]

    The screen component [RealTimeLocation] turns a position sample into a
    [LocationData] record along two paths: the foreground refresh
    [fetchLocationData] (elevation lookup, then reverse geocoding) and the
    background location task (elevation lookup only).  Both are embedded
    here as computations in a state-and-exception monad over the component's
    state and the console, with the three external collaborators supplied as
    an environment of settled promises. *)

From Stdlib Require Import String List Bool NArith.
From Stdlib Require Import Floats.PrimFloat.
Import ListNotations.

Set Warnings "-inexact-float,-register-all".
Local Open Scope string_scope.

(** ** Run-time values

    TypeScript's annotations are erased: what [axios] hands back in
    [response.data] and what the task manager hands to the background task
    are typed [any] in the source, so they are modelled as untyped
    JavaScript values.  A number is an IEEE binary64 float, which is what
    [PrimFloat.float] is. *)

Inductive JSValue : Type :=
| JSUndefined
| JSNull
| JSBool (b : bool)
| JSNumber (n : float)
| JSString (s : string)
| JSArray (elems : list JSValue)
| JSObject (props : list (string * JSValue)).

(** A property key: [v.name] or [v[i]]. *)
Inductive PropKey : Type :=
| Named (name : string)
| Index (i : nat).

Coercion Named : string >-> PropKey.

(** Own properties of an object, first binding of the key. *)
Fixpoint lookup (key : string) (props : list (string * JSValue)) : JSValue :=
  match props with
  | [] => JSUndefined
  | (k, v) :: rest => if String.eqb k key then v else lookup key rest
  end.

(** Decimal spelling of an array index, the key under which a plain object
    stores the property [i]. *)
Definition digit (d : nat) : string :=
  String (Ascii.ascii_of_nat (48 + d)) EmptyString.

Fixpoint decimal_fuel (fuel n : nat) : string :=
  match fuel with
  | O => digit (Nat.modulo n 10)
  | S fuel' =>
      if Nat.ltb n 10 then digit n
      else decimal_fuel fuel' (Nat.div n 10) ++ digit (Nat.modulo n 10)
  end.

Definition decimal (n : nat) : string := decimal_fuel n n.

(** The value of [v.k] for a [v] that is neither [undefined] nor [null].
    The names the component reads ([coords], [latitude], [longitude],
    [altitude], [accuracy], [data], [results], [elevation], [locations],
    [error]) are not built-in properties of arrays, strings, numbers or
    booleans, so on those only an index can hit. *)
Definition getProperty (v : JSValue) (k : PropKey) : JSValue :=
  match v, k with
  | JSObject props, Named name => lookup name props
  | JSObject props, Index i => lookup (decimal i) props
  | JSArray elems, Index i => nth i elems JSUndefined
  | JSString s, Index i =>
      match String.get i s with
      | Some c => JSString (String c EmptyString)
      | None => JSUndefined
      end
  | _, _ => JSUndefined
  end.

(** [undefined] and [null] have no properties: reading one throws. *)
Definition objectCoercible (v : JSValue) : bool :=
  match v with
  | JSUndefined | JSNull => false
  | _ => true
  end.

(** [v ?? d] *)
Definition nullish (v d : JSValue) : JSValue :=
  match v with
  | JSUndefined | JSNull => d
  | _ => v
  end.

(** ToBoolean *)
Definition truthy (v : JSValue) : bool :=
  match v with
  | JSUndefined | JSNull => false
  | JSBool b => b
  | JSNumber n => negb (PrimFloat.eqb n 0%float || PrimFloat.is_nan n)
  | JSString s => negb (String.eqb s EmptyString)
  | JSArray _ | JSObject _ => true
  end.

Definition isNumber (v : JSValue) : bool :=
  match v with
  | JSNumber _ => true
  | _ => false
  end.

(** ** The component's data *)

(** [interface LocationData].  The four coordinate fields hold whatever the
    sample and the elevation response carried; [address] is only ever
    assigned [null], a string literal or a template string. *)
Record LocationData : Type := {
  latitude : JSValue;
  longitude : JSValue;
  altitude : JSValue;
  accuracy : JSValue;
  address : option string
}.

(** One entry of [LocationGeocodedAddress[]], the declared result type of
    [Location.reverseGeocodeAsync]; each field is [string | null]. *)
Record LocationGeocodedAddress : Type := {
  name : option string;
  city : option string;
  region : option string;
  country : option string
}.

(** A value thrown or a promise's rejection reason. *)
Inductive Thrown : Type :=
| TypeError (what : string)
| Reason (r : JSValue).

Inductive Promise (A : Type) : Type :=
| Fulfilled (a : A)
| Rejected (reason : JSValue).
Arguments Fulfilled {A} a.
Arguments Rejected {A} reason.

Inductive ConsoleEntry : Type :=
| Warn (msg : string)
| Error (msg : string) (e : Thrown)
| ErrorValue (v : JSValue).

(** The three [useState] cells of the component and the console. *)
Record State : Type := {
  locationData : LocationData;
  isLoading : bool;
  backgroundLocation : option LocationData;
  console : list ConsoleEntry
}.

(** The external collaborators.  Each is called at most once per refresh;
    the environment gives the settled promise of that call, the two lookups
    as functions of the latitude and longitude they are keyed on (the
    elevation URL is determined by these two values, so a service that
    answers by the URL is one of these functions). *)
Record Services : Type := {
  getCurrentPositionAsync : Promise JSValue;
  axios_get : JSValue -> JSValue -> Promise JSValue;
  reverseGeocodeAsync : JSValue -> JSValue -> Promise (list LocationGeocodedAddress)
}.

(** ** Statements, exceptions and state *)

Inductive Completion (A : Type) : Type :=
| Normal (a : A)
| Throw (e : Thrown).
Arguments Normal {A} a.
Arguments Throw {A} e.

Definition M (A : Type) : Type := State -> Completion A * State.

Definition ret {A : Type} (a : A) : M A :=
  fun st => (Normal a, st).

Definition bind {A B : Type} (m : M A) (k : A -> M B) : M B :=
  fun st =>
    match m st with
    | (Normal a, st') => k a st'
    | (Throw e, st') => (Throw e, st')
    end.

Definition throw {A : Type} (e : Thrown) : M A :=
  fun st => (Throw e, st).

(** [try { body } catch (e) { handler }] *)
Definition try_catch {A : Type} (body : M A) (handler : Thrown -> M A) : M A :=
  fun st =>
    match body st with
    | (Normal a, st') => (Normal a, st')
    | (Throw e, st') => handler e st'
    end.

(** [try { body } finally { final }] *)
Definition try_finally {A : Type} (body : M A) (final : M unit) : M A :=
  fun st =>
    match body st with
    | (c, st') =>
        match final st' with
        | (Normal _, st'') => (c, st'')
        | (Throw e, st'') => (Throw e, st'')
        end
    end.

Declare Scope js_scope.
Delimit Scope js_scope with js.
Notation "x <- m ;; k" := (bind m (fun x => k))
  (at level 61, m at next level, right associativity) : js_scope.
Notation "m ;; k" := (bind m (fun _ => k))
  (at level 61, right associativity) : js_scope.
Local Open Scope js_scope.

(** [await p] *)
Definition await {A : Type} (p : Promise A) : M A :=
  match p with
  | Fulfilled a => ret a
  | Rejected r => throw (Reason r)
  end.

(** [v.k] and [v[i]] *)
Definition member (v : JSValue) (k : PropKey) : M JSValue :=
  if objectCoercible v then ret (getProperty v k)
  else throw (TypeError "Cannot read properties of undefined or null").

(** [v?.k] *)
Definition optionalMember (v : JSValue) (k : PropKey) : M JSValue :=
  if objectCoercible v then ret (getProperty v k) else ret JSUndefined.

Definition console_warn (msg : string) : M unit :=
  fun st =>
    (Normal tt,
     {| locationData := locationData st;
        isLoading := isLoading st;
        backgroundLocation := backgroundLocation st;
        console := console st ++ [Warn msg] |}).

Definition console_error (entry : ConsoleEntry) : M unit :=
  fun st =>
    (Normal tt,
     {| locationData := locationData st;
        isLoading := isLoading st;
        backgroundLocation := backgroundLocation st;
        console := console st ++ [entry] |}).

Definition setLocationData (record : LocationData) : M unit :=
  fun st =>
    (Normal tt,
     {| locationData := record;
        isLoading := isLoading st;
        backgroundLocation := backgroundLocation st;
        console := console st |}).

Definition setIsLoading (b : bool) : M unit :=
  fun st =>
    (Normal tt,
     {| locationData := locationData st;
        isLoading := b;
        backgroundLocation := backgroundLocation st;
        console := console st |}).

Definition setBackgroundLocation (record : option LocationData) : M unit :=
  fun st =>
    (Normal tt,
     {| locationData := locationData st;
        isLoading := isLoading st;
        backgroundLocation := record;
        console := console st |}).

(** [`${x}`] for a [string | null] *)
Definition interpolate (x : option string) : string :=
  match x with
  | Some s => s
  | None => "null"
  end.

(** ** Template literals

    The elevation URL is the template
    [`...?locations=${latitude},${longitude}`]: each substitution applies
    ToString to its value, and that can throw.  Of the values modelled
    here, ToString throws on a plain object that has an own [toString]
    property (no value of this model is callable, so the conversion finds
    no method that returns a primitive), and on an array with such an
    element, since an array is converted by joining the conversions of its
    elements other than [null] and [undefined]. *)

Fixpoint hasOwnProperty (key : string) (props : list (string * JSValue)) : bool :=
  match props with
  | [] => false
  | (k, _) :: rest => String.eqb k key || hasOwnProperty key rest
  end.

(** ToString(v) completes normally. *)
Fixpoint stringifiable (v : JSValue) : bool :=
  match v with
  | JSObject props => negb (hasOwnProperty "toString" props)
  | JSArray elems => forallb stringifiable elems
  | _ => true
  end.

(** The substitution [${v}]: ToString(v).  The text it yields is not
    computed: it only goes into the URL, and the elevation service is keyed
    on the two values the URL is built from. *)
Definition templateSubstitution (v : JSValue) : M unit :=
  if stringifiable v then ret tt
  else throw (TypeError "Cannot convert object to primitive value").

(** ** The two enrichment paths *)

(** The foreground path, body of [fetchLocationData] from the destructuring
    of [location.coords] to the record passed to [setLocationData]:
    elevation lookup with the sample's altitude as fallback, then reverse
    geocoding, each in its own [try]/[catch]. *)
Definition enrichForeground (env : Services) (coords : JSValue) : M LocationData :=
  latitude <- member coords "latitude" ;;
  longitude <- member coords "longitude" ;;
  altitude <- member coords "altitude" ;;
  accuracy <- member coords "accuracy" ;;
  elevation <-
    try_catch
      (templateSubstitution latitude ;;
       templateSubstitution longitude ;;
       elevationResponse <- await (axios_get env latitude longitude) ;;
       data <- member elevationResponse "data" ;;
       results <- member data "results" ;;
       first <- member results (Index 0) ;;
       elevation <- optionalMember first "elevation" ;;
       ret (nullish elevation altitude))
      (fun e =>
         console_warn "Elevation fetch failed, using GPS altitude" ;;
         ret altitude) ;;
  address <-
    try_catch
      (reverseGeocode <- await (reverseGeocodeAsync env latitude longitude) ;;
       let addressData := hd_error reverseGeocode in
       ret (match addressData with
            | Some a =>
                Some (interpolate (name a) ++ ", " ++ interpolate (city a) ++ ", "
                      ++ interpolate (region a) ++ ", " ++ interpolate (country a))
            | None => Some "Address not found"
            end))
      (fun e =>
         console_warn "Reverse geocode failed" ;;
         ret None) ;;
  ret {| latitude := latitude;
         longitude := longitude;
         altitude := elevation;
         accuracy := accuracy;
         address := address |}.

(** [fetchLocationData], the "Refresh Now" handler. *)
Definition fetchLocationData (env : Services) : M unit :=
  setIsLoading true ;;
  try_finally
    (try_catch
       (location <- await (getCurrentPositionAsync env) ;;
        coords <- member location "coords" ;;
        record <- enrichForeground env coords ;;
        setLocationData record)
       (fun error =>
          console_error (Error "Error fetching location data:" error)))
    (setIsLoading false).

(** The background path, body of the location task from the destructuring
    of [locations[0].coords] to the record passed to
    [setBackgroundLocation]. *)
Definition enrichBackground (env : Services) (coords : JSValue) : M LocationData :=
  latitude <- member coords "latitude" ;;
  longitude <- member coords "longitude" ;;
  altitude <- member coords "altitude" ;;
  accuracy <- member coords "accuracy" ;;
  elevation <-
    try_catch
      (templateSubstitution latitude ;;
       templateSubstitution longitude ;;
       elevationResponse <- await (axios_get env latitude longitude) ;;
       data <- member elevationResponse "data" ;;
       results <- member data "results" ;;
       first <- member results (Index 0) ;;
       elevation <- optionalMember first "elevation" ;;
       ret (nullish elevation altitude))
      (fun e =>
         console_warn "Elevation fetch failed in background task" ;;
         ret altitude) ;;
  ret {| latitude := latitude;
         longitude := longitude;
         altitude := elevation;
         accuracy := accuracy;
         address := Some "Address in background not fetched" |}.

(** The callback given to [TaskManager.defineTask]; [body] is its one
    argument, destructured as [{ data, error }]. *)
Definition locationTask (env : Services) (body : JSValue) : M unit :=
  data <- member body "data" ;;
  error <- member body "error" ;;
  if truthy error then console_error (ErrorValue error)
  else if truthy data then
    locations <- member data "locations" ;;
    first <- member locations (Index 0) ;;
    coords <- member first "coords" ;;
    record <- enrichBackground env coords ;;
    setBackgroundLocation (Some record)
  else ret tt.

(** The pipeline as one operation: the foreground refresh is the caller
    that resolves the address, the background task the one that does not. *)
Definition enrich (env : Services) (sample : JSValue) (resolveAddress : bool)
  : M LocationData :=
  if resolveAddress then enrichForeground env sample
  else enrichBackground env sample.

(** The state the component mounts with. *)
Definition initialState : State :=
  {| locationData :=
       {| latitude := JSNumber 0%float;
          longitude := JSNumber 0%float;
          altitude := JSNull;
          accuracy := JSNull;
          address := None |};
     isLoading := false;
     backgroundLocation := None;
     console := [] |}.

(** ** What a run leaves untouched *)

(** [sameCells st st']: the three [useState] cells agree; only the console
    may have grown. *)
Definition sameCells (st st' : State) : Prop :=
  locationData st' = locationData st /\
  isLoading st' = isLoading st /\
  backgroundLocation st' = backgroundLocation st.

(** The record a run returned, if it returned one. *)
Definition returned {A : Type} (run : Completion A * State) : option A :=
  match fst run with
  | Normal a => Some a
  | Throw _ => None
  end.

(** ** The lookups read as data

    The elevation a response reports, read along [data.results[0].elevation]
    without exceptions: a missing step reads as [undefined]. *)
Definition elevationField (response : JSValue) : JSValue :=
  getProperty
    (getProperty (getProperty (getProperty response "data") "results") (Index 0))
    "elevation".

(** Elevation by the resolution order: the service's value unless it is
    [null] or [undefined], else the altitude. *)
Definition resolvedElevation (lookup : Promise JSValue) (altitude : JSValue) : JSValue :=
  match lookup with
  | Fulfilled response => nullish (elevationField response) altitude
  | Rejected _ => altitude
  end.

(** The elevation URL can be built: both substitutions convert. *)
Definition requestFormed (latitude longitude : JSValue) : bool :=
  stringifiable latitude && stringifiable longitude.

(** The elevation lookup as the [try] block meets it: the service's
    answer when the URL can be built, and a failure before any call is
    made when it cannot. *)
Definition attempted (latitude longitude : JSValue) (lookup : Promise JSValue)
  : Promise JSValue :=
  if requestFormed latitude longitude then lookup
  else Rejected (JSString "Cannot convert object to primitive value").

Definition elevationCall (env : Services) (latitude longitude : JSValue)
  : Promise JSValue :=
  attempted latitude longitude (axios_get env latitude longitude).

(** The service returned a usable numeric value, in the spec's words: the
    call succeeded and the reported elevation is a number. *)
Definition usableNumeric (lookup : Promise JSValue) : option float :=
  match lookup with
  | Fulfilled response =>
      match elevationField response with
      | JSNumber n => Some n
      | _ => None
      end
  | Rejected _ => None
  end.

(** The display string of a candidate. *)
Definition displayString (a : LocationGeocodedAddress) : string :=
  interpolate (name a) ++ ", " ++ interpolate (city a) ++ ", "
  ++ interpolate (region a) ++ ", " ++ interpolate (country a).

Definition resolvedAddress (lookup : Promise (list LocationGeocodedAddress))
  : option string :=
  match lookup with
  | Fulfilled [] => Some "Address not found"
  | Fulfilled (first :: _) => Some (displayString first)
  | Rejected _ => None
  end.

(** A structurally valid sample: latitude and longitude are numbers. *)
Definition validSample (sample : JSValue) : bool :=
  isNumber (getProperty sample "latitude") && isNumber (getProperty sample "longitude").

(** The address the pipeline resolves under the option flag. *)
Definition resolvedAddressFor (env : Services) (sample : JSValue)
  (resolveAddress : bool) : option string :=
  if resolveAddress
  then resolvedAddress
         (reverseGeocodeAsync env (getProperty sample "latitude")
            (getProperty sample "longitude"))
  else Some "Address in background not fetched".

(** The record the foreground refresh stores, if it stores one. *)
Definition refreshedRecord (env : Services) : option LocationData :=
  match getCurrentPositionAsync env with
  | Fulfilled location =>
      let coords := getProperty location "coords" in
      if objectCoercible location && objectCoercible coords then
        Some {| latitude := getProperty coords "latitude";
                longitude := getProperty coords "longitude";
                altitude :=
                  resolvedElevation
                    (elevationCall env (getProperty coords "latitude")
                       (getProperty coords "longitude"))
                    (getProperty coords "altitude");
                accuracy := getProperty coords "accuracy";
                address :=
                  resolvedAddress
                    (reverseGeocodeAsync env (getProperty coords "latitude")
                       (getProperty coords "longitude")) |}
      else None
  | Rejected _ => None
  end.

(** ** Concrete samples and services *)

Definition googleplexSample : JSValue :=
  JSObject [("latitude", JSNumber 37.422%float);
            ("longitude", JSNumber (-122.084)%float);
            ("altitude", JSNumber 10%float);
            ("accuracy", JSNumber 5%float)].


(** The body [{"results": [{"elevation": e}]}] in an axios response. *)
Definition elevationResponse (elevation : JSValue) : JSValue :=
  JSObject [("data", JSObject [("results", JSArray [JSObject [("elevation", elevation)]])])].

Definition googleplex : LocationGeocodedAddress :=
  {| name := Some "Googleplex";
     city := Some "Mountain View";
     region := Some "CA";
     country := Some "USA" |}.

Definition timedOut : JSValue := JSString "timeout exceeded".

(** Services that answer the same whatever the coordinates asked for. *)
Definition services (position : Promise JSValue) (elevation : Promise JSValue)
  (geocode : Promise (list LocationGeocodedAddress)) : Services :=
  {| getCurrentPositionAsync := position;
     axios_get := fun _ _ => elevation;
     reverseGeocodeAsync := fun _ _ => geocode |}.

Definition googleplexPosition : Promise JSValue :=
  Fulfilled (JSObject [("coords", googleplexSample)]).

(** A state in which a record has been stored and the console used. *)
Definition refreshedState : State :=
  {| locationData :=
       {| latitude := JSNumber 37.422%float;
          longitude := JSNumber (-122.084)%float;
          altitude := JSNumber 12.3%float;
          accuracy := JSNumber 5%float;
          address := Some "Googleplex, Mountain View, CA, USA" |};
     isLoading := false;
     backgroundLocation := None;
     console := [Warn "Reverse geocode failed"] |}.

(** The argument the task manager passes for one batch of locations. *)
Definition taskBody (coords : JSValue) : JSValue :=
  JSObject [("data", JSObject [("locations", JSArray [JSObject [("coords", coords)]])]);
            ("error", JSNull)].

(** ** What a run writes to the console *)

(** Reading [data.results[0]] off the response does not throw. *)
Definition elevationReadable (lookup : Promise JSValue) : bool :=
  match lookup with
  | Fulfilled response =>
      objectCoercible response
      && objectCoercible (getProperty response "data")
      && objectCoercible (getProperty (getProperty response "data") "results")
  | Rejected _ => false
  end.

Definition elevationWarnings (lookup : Promise JSValue) (msg : string)
  : list ConsoleEntry :=
  if elevationReadable lookup then [] else [Warn msg].

Definition geocodeWarnings (lookup : Promise (list LocationGeocodedAddress))
  : list ConsoleEntry :=
  match lookup with
  | Fulfilled _ => []
  | Rejected _ => [Warn "Reverse geocode failed"]
  end.

(** What the refresh logs when it has no sample to enrich: the rejection
    of the position source, or the [TypeError] of reading [coords]. *)
Definition positionFailure (env : Services) : option Thrown :=
  match getCurrentPositionAsync env with
  | Fulfilled location =>
      if objectCoercible location && objectCoercible (getProperty location "coords")
      then None
      else Some (TypeError "Cannot read properties of undefined or null")
  | Rejected reason => Some (Reason reason)
  end.

(** ** The background task's argument *)

(** [data.locations[0].coords] of the task's argument, read without
    exceptions. *)
Definition firstCoords (body : JSValue) : JSValue :=
  getProperty
    (getProperty (getProperty (getProperty body "data") "locations") (Index 0))
    "coords".

(** The argument for a batch of location objects, with no error. *)
Definition taskBatch (locations : list JSValue) : JSValue :=
  JSObject [("data", JSObject [("locations", JSArray locations)]);
            ("error", JSNull)].

(** ** Permissions and the first refresh *)

(** [Location.Accuracy] *)
Inductive Accuracy : Type :=
| Lowest | Low | Balanced | High | Highest | BestForNavigation.

Module LocationTaskOptions.

Record t : Type := {
  accuracy : Accuracy;
  timeInterval : N;
  distanceInterval : N;
  showsBackgroundLocationIndicator : bool
}.

End LocationTaskOptions.

(** The permission and task-control calls of [expo-location], each with
    the settled promise of the call. *)
Record LocationModule : Type := {
  requestForegroundPermissionsAsync : Promise JSValue;
  requestBackgroundPermissionsAsync : Promise JSValue;
  startLocationUpdatesAsync : string -> LocationTaskOptions.t -> Promise unit;
  stopLocationUpdatesAsync : string -> Promise unit
}.

(** [v === 'literal'] *)
Definition strictEqualsString (v : JSValue) (literal : string) : bool :=
  match v with
  | JSString s => String.eqb s literal
  | _ => false
  end.

(** [initializeLocationUpdates], run once when the component mounts. *)
Definition initializeLocationUpdates (loc : LocationModule) (env : Services) : M unit :=
  try_catch
    (response <- await (requestForegroundPermissionsAsync loc) ;;
     status <- member response "status" ;;
     if negb (strictEqualsString status "granted")
     then console_warn "Permission to access location was denied"
     else fetchLocationData env)
    (fun error =>
       console_error (Error "Error initializing location updates:" error)).

(** The foreground permission was granted. *)
Definition foregroundGranted (loc : LocationModule) : bool :=
  match requestForegroundPermissionsAsync loc with
  | Fulfilled response => strictEqualsString (getProperty response "status") "granted"
  | Rejected _ => false
  end.

(** ** Starting and stopping background updates

    These two functions act outside the component: they command the
    location module and write a [console.log] line.  The world pairs the
    component's state with the trace of those effects. *)

Inductive Effect : Type :=
| StartLocationUpdates (taskName : string) (options : LocationTaskOptions.t)
| StopLocationUpdates (taskName : string)
| ConsoleLog (msg : string).

Record World : Type := {
  component : State;
  effects : list Effect
}.

Definition W (A : Type) : Type := World -> Completion A * World.

Definition retW {A : Type} (a : A) : W A :=
  fun w => (Normal a, w).

Definition bindW {A B : Type} (m : W A) (k : A -> W B) : W B :=
  fun w =>
    match m w with
    | (Normal a, w') => k a w'
    | (Throw e, w') => (Throw e, w')
    end.

Definition try_catchW {A : Type} (body : W A) (handler : Thrown -> W A) : W A :=
  fun w =>
    match body w with
    | (Normal a, w') => (Normal a, w')
    | (Throw e, w') => handler e w'
    end.

(** A computation on the component, run in the world. *)
Definition lift {A : Type} (m : M A) : W A :=
  fun w =>
    match m (component w) with
    | (c, st') => (c, {| component := st'; effects := effects w |})
    end.

Definition emit (e : Effect) : W unit :=
  fun w => (Normal tt, {| component := component w; effects := effects w ++ [e] |}).

Declare Scope world_scope.
Delimit Scope world_scope with world.
Notation "x <- m ;; k" := (bindW m (fun x => k))
  (at level 61, m at next level, right associativity) : world_scope.
Notation "m ;; k" := (bindW m (fun _ => k))
  (at level 61, right associativity) : world_scope.

Definition LOCATION_TASK_NAME : string := "background-location-task".

Definition backgroundOptions : LocationTaskOptions.t :=
  {| LocationTaskOptions.accuracy := High;
     LocationTaskOptions.timeInterval := 20000%N;
     LocationTaskOptions.distanceInterval := 10%N;
     LocationTaskOptions.showsBackgroundLocationIndicator := true |}.

(** [startBackgroundLocationUpdates]: no [try] around either call. *)
Definition startBackgroundLocationUpdates (loc : LocationModule) : W unit :=
  (response <- lift (await (requestBackgroundPermissionsAsync loc)) ;;
   status <- lift (member response "status") ;;
   if strictEqualsString status "granted"
   then
     emit (StartLocationUpdates LOCATION_TASK_NAME backgroundOptions) ;;
     lift (await (startLocationUpdatesAsync loc LOCATION_TASK_NAME backgroundOptions))
   else lift (console_warn "Background location permissions not granted"))%world.

(** [stopBackgroundLocationUpdates] *)
Definition stopBackgroundLocationUpdates (loc : LocationModule) : W unit :=
  try_catchW
    (emit (StopLocationUpdates LOCATION_TASK_NAME) ;;
     lift (await (stopLocationUpdatesAsync loc LOCATION_TASK_NAME)) ;;
     emit (ConsoleLog "Background location updates stopped"))%world
    (fun error =>
       lift (console_error (Error "Error stopping background location updates:" error))).

(** The background permission was granted. *)
Definition backgroundGranted (loc : LocationModule) : bool :=
  match requestBackgroundPermissionsAsync loc with
  | Fulfilled response => strictEqualsString (getProperty response "status") "granted"
  | Rejected _ => false
  end.

(** ** What the screen shows *)

(** The text of the screen: the title, the five lines of the info card,
    the loading line when it is shown, and the button's title. *)
Record Screen : Type := {
  title : string;
  addressText : string;
  latitudeText : string;
  longitudeText : string;
  elevationText : string;
  accuracyText : string;
  loadingText : option string;
  button : string
}.

(** [v.toFixed(digits)].  Only a number has the method; how it spells the
    number is left to [formatFixed]. *)
Definition toFixed (formatFixed : float -> nat -> string) (v : JSValue) (digits : nat)
  : M string :=
  match v with
  | JSNumber n => ret (formatFixed n digits)
  | JSUndefined | JSNull =>
      throw (TypeError "Cannot read properties of undefined or null")
  | _ => throw (TypeError "toFixed is not a function")
  end.

(** [a || 'Fetching...'] for the address *)
Definition orFetching (a : option string) : string :=
  match a with
  | Some s => if String.eqb s EmptyString then "Fetching..." else s
  | None => "Fetching..."
  end.

(** [v ? `${v.toFixed(2)} meters` : 'Fetching...'] *)
Definition metersOrFetching (formatFixed : float -> nat -> string) (v : JSValue)
  : M string :=
  if truthy v
  then (fixed <- toFixed formatFixed v 2 ;; ret (fixed ++ " meters"))
  else ret "Fetching...".

(** The component's [return]: the JSX expressions, evaluated in order. *)
Definition render (formatFixed : float -> nat -> string) : M Screen :=
  fun st =>
    (let addressLine := "📍 Address: " ++ orFetching (address (locationData st)) in
     lat <- toFixed formatFixed (latitude (locationData st)) 6 ;;
     lon <- toFixed formatFixed (longitude (locationData st)) 6 ;;
     elevation <- metersOrFetching formatFixed (altitude (locationData st)) ;;
     acc <- metersOrFetching formatFixed (accuracy (locationData st)) ;;
     ret {| title := "Real-Time Elevation & Location";
            addressText := addressLine;
            latitudeText := "🌍 Latitude: " ++ lat;
            longitudeText := "🌍 Longitude: " ++ lon;
            elevationText := "🗻 Elevation: " ++ elevation;
            accuracyText := "🎯 Accuracy: " ++ acc;
            loadingText := if isLoading st then Some "Loading..." else None;
            button := "Refresh Now" |}) st.

(** The stored record can be shown: latitude and longitude are numbers,
    altitude and accuracy are numbers or falsy. *)
Definition renderable (data : LocationData) : bool :=
  isNumber (latitude data)
  && isNumber (longitude data)
  && (negb (truthy (altitude data)) || isNumber (altitude data))
  && (negb (truthy (accuracy data)) || isNumber (accuracy data)).

(** A number, [null] or [undefined]. *)
Definition numberOrNullish (v : JSValue) : bool :=
  isNumber v || negb (objectCoercible v).

(** ** More concrete inputs *)

(** A sample whose latitude cannot be written into the URL: an object
    with an own [toString] that is not a function. *)
Definition unprintableSample : JSValue :=
  JSObject [("latitude", JSObject [("toString", JSNull)]);
            ("longitude", JSNumber (-122.084)%float);
            ("altitude", JSNumber 10%float);
            ("accuracy", JSNumber 5%float)].

(** A response with no result at all. *)
Definition emptyResults : JSValue :=
  JSObject [("data", JSObject [("results", JSArray [])])].

(** A location module that answers every permission request with the
    given status and accepts every command. *)
Definition locationModule (status : JSValue) : LocationModule :=
  {| requestForegroundPermissionsAsync := Fulfilled (JSObject [("status", status)]);
     requestBackgroundPermissionsAsync := Fulfilled (JSObject [("status", status)]);
     startLocationUpdatesAsync := fun _ _ => Fulfilled tt;
     stopLocationUpdatesAsync := fun _ => Fulfilled tt |}.

(** A stand-in for the digits [toFixed] prints. *)
Definition someDigits (n : float) (digits : nat) : string := "12.30".

(** Sea level: the service reports an elevation of 0. *)
Definition seaLevelServices : Services :=
  services googleplexPosition (Fulfilled (elevationResponse (JSNumber 0%float)))
    (Rejected timedOut).

(** ** Basic facts about the monad and property reads *)

Lemma sameCells_refl st : sameCells st st.
Proof. repeat split. Qed.

Lemma sameCells_trans st1 st2 st3 :
  sameCells st1 st2 -> sameCells st2 st3 -> sameCells st1 st3.
Proof.
  intros (Ha & Hb & Hc) (Ha' & Hb' & Hc').
  repeat split; congruence.
Qed.

Lemma member_coercible v k st :
  objectCoercible v = true -> member v k st = (Normal (getProperty v k), st).
Proof. unfold member. intros ->. reflexivity. Qed.

Lemma member_throws v k st :
  objectCoercible v = false ->
  member v k st = (Throw (TypeError "Cannot read properties of undefined or null"), st).
Proof. unfold member. intros ->. reflexivity. Qed.

Lemma getProperty_nothing v k :
  objectCoercible v = false -> getProperty v k = JSUndefined.
Proof. destruct v; simpl; intros H; try discriminate; reflexivity. Qed.

Lemma optionalMember_run v k st :
  optionalMember v k st = (Normal (getProperty v k), st).
Proof.
  unfold optionalMember. destruct (objectCoercible v) eqn:E.
  - reflexivity.
  - rewrite (getProperty_nothing v k E). reflexivity.
Qed.

Lemma validSample_coercible sample :
  validSample sample = true -> objectCoercible sample = true.
Proof. destruct sample; simpl; intros H; try discriminate; reflexivity. Qed.

Lemma isNumber_stringifiable v : isNumber v = true -> stringifiable v = true.
Proof. destruct v; simpl; intros H; try discriminate; reflexivity. Qed.

Lemma validSample_requestFormed sample :
  validSample sample = true ->
  requestFormed (getProperty sample "latitude") (getProperty sample "longitude") = true.
Proof.
  unfold validSample, requestFormed. intros H.
  apply andb_prop in H. destruct H as (Hlat & Hlon).
  rewrite (isNumber_stringifiable _ Hlat), (isNumber_stringifiable _ Hlon).
  reflexivity.
Qed.

(** A latitude or longitude that cannot be written into the URL is not
    a number. *)
Lemma unformed_request_not_numbers latitude longitude :
  requestFormed latitude longitude = false ->
  isNumber latitude && isNumber longitude = false.
Proof.
  unfold requestFormed.
  destruct (isNumber latitude) eqn:Hlat, (isNumber longitude) eqn:Hlon;
    try reflexivity.
  rewrite (isNumber_stringifiable _ Hlat), (isNumber_stringifiable _ Hlon).
  discriminate.
Qed.

(** Splits on whether the next property read throws. *)
Ltac step_member :=
  match goal with
  | |- context [member ?v ?k ?st] =>
      let E := fresh "E" in
      destruct (objectCoercible v) eqn:E;
      [ rewrite (member_coercible v k st E)
      | rewrite (member_throws v k st E) ]
  end.

(** The elevation block of either path once the URL is built: whatever
    the lookup does, it completes normally with [resolvedElevation],
    leaving at most a warning on the console. *)
Lemma elevation_block lookup altitude msg st :
  exists st',
    try_catch
      (elevationResponse <- await lookup ;;
       data <- member elevationResponse "data" ;;
       results <- member data "results" ;;
       first <- member results (Index 0) ;;
       elevation <- optionalMember first "elevation" ;;
       ret (nullish elevation altitude))
      (fun e => console_warn msg ;; ret altitude) st
    = (Normal (resolvedElevation lookup altitude), st')
    /\ sameCells st st'.
Proof.
  unfold try_catch, bind, resolvedElevation, elevationField.
  destruct lookup as [response | reason]; cbn [await ret throw].
  - repeat (step_member; cbn [ret]);
      try rewrite optionalMember_run;
      repeat match goal with
             | E : objectCoercible ?v = false |- _ =>
                 rewrite ?(getProperty_nothing v _ E); clear E
             end;
      cbn [getProperty nullish];
      (eexists; split; [ reflexivity | first [ apply sameCells_refl | repeat split ] ]).
  - eexists. split; [ reflexivity | repeat split ].
Qed.

(** A handler that ignores what it caught sees no difference between a
    substitution that throws and a call that is rejected. *)
Lemma try_after_substitutions {A : Type} latitude longitude
  (body : M A) (handler : M A) st :
  try_catch
    (templateSubstitution latitude ;; templateSubstitution longitude ;; body)
    (fun _ => handler) st
  = if requestFormed latitude longitude
    then try_catch body (fun _ => handler) st
    else handler st.
Proof.
  unfold try_catch, bind, templateSubstitution, requestFormed.
  destruct (stringifiable latitude), (stringifiable longitude); reflexivity.
Qed.

(** The whole elevation [try] of either path, URL included. *)
Lemma elevation_try latitude longitude lookup altitude msg st :
  exists st',
    try_catch
      (templateSubstitution latitude ;;
       templateSubstitution longitude ;;
       elevationResponse <- await lookup ;;
       data <- member elevationResponse "data" ;;
       results <- member data "results" ;;
       first <- member results (Index 0) ;;
       elevation <- optionalMember first "elevation" ;;
       ret (nullish elevation altitude))
      (fun e => console_warn msg ;; ret altitude) st
    = (Normal (resolvedElevation (attempted latitude longitude lookup) altitude), st')
    /\ sameCells st st'.
Proof.
  rewrite try_after_substitutions. unfold attempted.
  destruct (requestFormed latitude longitude).
  - exact (elevation_block lookup altitude msg st).
  - eexists. split; [ reflexivity | repeat split ].
Qed.

(** The geocoding block of the foreground path. *)
Lemma address_block lookup st :
  exists st',
    try_catch
      (reverseGeocode <- await lookup ;;
       ret (match hd_error reverseGeocode with
            | Some a =>
                Some (interpolate (name a) ++ ", " ++ interpolate (city a) ++ ", "
                      ++ interpolate (region a) ++ ", " ++ interpolate (country a))
            | None => Some "Address not found"
            end))
      (fun e => console_warn "Reverse geocode failed" ;; ret None) st
    = (Normal (resolvedAddress lookup), st')
    /\ sameCells st st'.
Proof.
  unfold try_catch, bind.
  destruct lookup as [[ | first rest] | reason]; cbn;
    (eexists; split; [ reflexivity | repeat split ]).
Qed.

(** ** Closed forms of the two paths *)

(** On a sample that is neither [undefined] nor [null] the foreground path
    returns this record, whatever the two lookups do. *)
Lemma enrichForeground_returns env coords st :
  objectCoercible coords = true ->
  exists st',
    enrichForeground env coords st
    = (Normal
         {| latitude := getProperty coords "latitude";
            longitude := getProperty coords "longitude";
            altitude :=
              resolvedElevation
                (elevationCall env (getProperty coords "latitude")
                   (getProperty coords "longitude"))
                (getProperty coords "altitude");
            accuracy := getProperty coords "accuracy";
            address :=
              resolvedAddress
                (reverseGeocodeAsync env (getProperty coords "latitude")
                   (getProperty coords "longitude")) |},
       st')
    /\ sameCells st st'.
Proof.
  intros Hc. unfold enrichForeground.
  do 4 (unfold bind at 1; rewrite (member_coercible _ _ _ Hc)).
  unfold bind at 1.
  destruct (elevation_try
              (getProperty coords "latitude") (getProperty coords "longitude")
              (axios_get env (getProperty coords "latitude")
                 (getProperty coords "longitude"))
              (getProperty coords "altitude")
              "Elevation fetch failed, using GPS altitude" st)
    as (st1 & -> & H1).
  cbv beta iota. unfold bind at 1.
  destruct (address_block
              (reverseGeocodeAsync env (getProperty coords "latitude")
                 (getProperty coords "longitude")) st1)
    as (st2 & -> & H2).
  exists st2. split; [ reflexivity | exact (sameCells_trans _ _ _ H1 H2) ].
Qed.

Lemma enrichBackground_returns env coords st :
  objectCoercible coords = true ->
  exists st',
    enrichBackground env coords st
    = (Normal
         {| latitude := getProperty coords "latitude";
            longitude := getProperty coords "longitude";
            altitude :=
              resolvedElevation
                (elevationCall env (getProperty coords "latitude")
                   (getProperty coords "longitude"))
                (getProperty coords "altitude");
            accuracy := getProperty coords "accuracy";
            address := Some "Address in background not fetched" |},
       st')
    /\ sameCells st st'.
Proof.
  intros Hc. unfold enrichBackground.
  do 4 (unfold bind at 1; rewrite (member_coercible _ _ _ Hc)).
  unfold bind at 1.
  destruct (elevation_try
              (getProperty coords "latitude") (getProperty coords "longitude")
              (axios_get env (getProperty coords "latitude")
                 (getProperty coords "longitude"))
              (getProperty coords "altitude")
              "Elevation fetch failed in background task" st)
    as (st1 & -> & H1).
  exists st1. split; [ reflexivity | exact H1 ].
Qed.

(** On [undefined] or [null] the destructuring throws before anything else
    happens. *)
Lemma enrich_throws env sample resolveAddress st :
  objectCoercible sample = false ->
  enrich env sample resolveAddress st
  = (Throw (TypeError "Cannot read properties of undefined or null"), st).
Proof.
  intros Hc. unfold enrich, enrichForeground, enrichBackground.
  destruct resolveAddress; unfold bind at 1;
    rewrite (member_throws _ _ _ Hc); reflexivity.
Qed.

Lemma enrich_returns env sample resolveAddress st :
  objectCoercible sample = true ->
  exists st',
    enrich env sample resolveAddress st
    = (Normal
         {| latitude := getProperty sample "latitude";
            longitude := getProperty sample "longitude";
            altitude :=
              resolvedElevation
                (elevationCall env (getProperty sample "latitude")
                   (getProperty sample "longitude"))
                (getProperty sample "altitude");
            accuracy := getProperty sample "accuracy";
            address := resolvedAddressFor env sample resolveAddress |},
       st')
    /\ sameCells st st'.
Proof.
  intros Hc. unfold enrich, resolvedAddressFor. destruct resolveAddress.
  - exact (enrichForeground_returns env sample st Hc).
  - exact (enrichBackground_returns env sample st Hc).
Qed.

(** A refresh never throws: it ends with the loading flag down, the
    background cell untouched, and the foreground cell either rewritten
    with [refreshedRecord] or left as it was. *)
Lemma fetchLocationData_run env st :
  exists st',
    fetchLocationData env st = (Normal tt, st')
    /\ isLoading st' = false
    /\ backgroundLocation st' = backgroundLocation st
    /\ locationData st'
       = match refreshedRecord env with
         | Some record => record
         | None => locationData st
         end.
Proof.
  unfold fetchLocationData, refreshedRecord.
  unfold bind at 1. cbn [setIsLoading].
  unfold try_finally, try_catch.
  destruct (getCurrentPositionAsync env) as [location | reason].
  - unfold bind at 1. cbn [await ret].
    unfold bind at 1. step_member; cbn [andb].
    + unfold bind at 1.
      destruct (objectCoercible (getProperty location "coords")) eqn:Ec.
      * match goal with
        | |- context [enrichForeground env ?c ?s] =>
            destruct (enrichForeground_returns env c s Ec) as (st1 & -> & H1 & H2 & H3)
        end.
        cbn. eexists. repeat split. exact H3.
      * unfold enrichForeground. unfold bind at 1.
        rewrite (member_throws _ _ _ Ec).
        cbn. eexists. repeat split.
    + cbn. eexists. repeat split.
  - cbn. eexists. repeat split.
Qed.

(** The completion of [enrich] does not depend on the state it runs in. *)
Lemma enrich_ignores_state env sample resolveAddress st1 st2 :
  fst (enrich env sample resolveAddress st1)
  = fst (enrich env sample resolveAddress st2).
Proof.
  destruct (objectCoercible sample) eqn:Hc.
  - destruct (enrich_returns env sample resolveAddress st1 Hc) as (st1' & -> & _).
    destruct (enrich_returns env sample resolveAddress st2 Hc) as (st2' & -> & _).
    reflexivity.
  - rewrite !enrich_throws by exact Hc. reflexivity.
Qed.

(** The background task stores what the background path returns and
    leaves the foreground record alone. *)
Lemma locationTask_stores env coords st :
  objectCoercible coords = true ->
  exists st',
    locationTask env (taskBody coords) st = (Normal tt, st') /\
    backgroundLocation st' = returned (enrich env coords false st) /\
    locationData st' = locationData st.
Proof.
  intros Hc. unfold locationTask, taskBody, returned, enrich.
  unfold bind at 1. cbn [member objectCoercible getProperty lookup String.eqb
                          Ascii.eqb Bool.eqb ret].
  unfold bind at 1. cbn [member objectCoercible getProperty lookup String.eqb
                          Ascii.eqb Bool.eqb ret truthy].
  do 3 (unfold bind at 1;
        cbn [member objectCoercible getProperty lookup String.eqb
               Ascii.eqb Bool.eqb ret nth]).
  unfold bind at 1.
  destruct (enrichBackground_returns env coords st Hc) as (st1 & -> & H1 & _ & _).
  cbn. eexists. repeat split. exact H1.
Qed.

(** ** The elevation resolution order *)

(** C1, as the code has it.  For every sample that can be destructured,
    [enrich] returns a record whose elevation follows this order.  The
    call is made when the latitude and longitude can be written into the
    request URL, which holds for every valid sample.  When the call was
    made and succeeded and [data.results[0].elevation] is neither [null]
    nor [undefined], the elevation is that value, whatever the sample's
    altitude (in particular a numeric value is returned as it is).  When
    the URL cannot be built, or the call failed, or that field is [null],
    missing or unreadable, the elevation is the sample's altitude; and
    then an absent altitude gives an absent elevation. *)
Theorem elevation_resolution_order env sample resolveAddress st :
  objectCoercible sample = true ->
  exists record st',
    enrich env sample resolveAddress st = (Normal record, st') /\
    let asked :=
      requestFormed (getProperty sample "latitude") (getProperty sample "longitude") in
    let lookup :=
      axios_get env (getProperty sample "latitude") (getProperty sample "longitude") in
    let deviceAltitude := getProperty sample "altitude" in
    (validSample sample = true -> asked = true) /\
    (forall response,
        asked = true ->
        lookup = Fulfilled response ->
        objectCoercible (elevationField response) = true ->
        altitude record = elevationField response) /\
    (forall n,
        asked = true ->
        usableNumeric lookup = Some n ->
        altitude record = JSNumber n) /\
    let fellBack :=
      asked = false \/
      (exists reason, lookup = Rejected reason) \/
      (exists response,
          lookup = Fulfilled response /\
          objectCoercible (elevationField response) = false) in
    (fellBack -> altitude record = deviceAltitude) /\
    (fellBack ->
     objectCoercible deviceAltitude = false ->
     objectCoercible (altitude record) = false).
Proof.
  intros Hc.
  destruct (enrich_returns env sample resolveAddress st Hc) as (st' & Hrun & _).
  eexists. exists st'. split; [ exact Hrun | ].
  cbv zeta. cbn [altitude]. unfold elevationCall, attempted.
  assert (Hfallback :
            requestFormed (getProperty sample "latitude")
              (getProperty sample "longitude") = false \/
            (exists reason,
                axios_get env (getProperty sample "latitude")
                  (getProperty sample "longitude") = Rejected reason) \/
            (exists response,
                axios_get env (getProperty sample "latitude")
                  (getProperty sample "longitude") = Fulfilled response /\
                objectCoercible (elevationField response) = false) ->
            resolvedElevation
              (if requestFormed (getProperty sample "latitude")
                    (getProperty sample "longitude")
               then axios_get env (getProperty sample "latitude")
                      (getProperty sample "longitude")
               else Rejected (JSString "Cannot convert object to primitive value"))
              (getProperty sample "altitude")
            = getProperty sample "altitude").
  { intros [-> | [(reason & ->) | (response & -> & Hv)]].
    - reflexivity.
    - destruct (requestFormed _ _); reflexivity.
    - destruct (requestFormed _ _); cbn [resolvedElevation]; [ | reflexivity ].
      destruct (elevationField response); try discriminate; reflexivity. }
  split; [ exact (validSample_requestFormed sample) | ].
  repeat split.
  - intros response -> -> Hv. cbn [resolvedElevation].
    destruct (elevationField response); try discriminate; reflexivity.
  - intros n ->. unfold usableNumeric, resolvedElevation.
    destruct (axios_get env _ _) as [response | reason]; try discriminate.
    destruct (elevationField response); try discriminate.
    intros [= ->]. reflexivity.
  - exact Hfallback.
  - intros Hfell Habsent. rewrite (Hfallback Hfell). exact Habsent.
Qed.

Lemma elevation_resolution_order_witness :
  objectCoercible googleplexSample = true /\
  exists record st',
    enrich (services googleplexPosition
              (Fulfilled (elevationResponse (JSNumber 12.3%float)))
              (Fulfilled [googleplex]))
      googleplexSample true initialState
    = (Normal record, st') /\
    altitude record = JSNumber 12.3%float.
Proof.
  split; [ reflexivity | ].
  destruct (elevation_resolution_order
              (services googleplexPosition
                 (Fulfilled (elevationResponse (JSNumber 12.3%float)))
                 (Fulfilled [googleplex]))
              googleplexSample true initialState eq_refl)
    as (record & st' & Hrun & _ & _ & Hnumeric & _).
  exists record, st'. split; [ exact Hrun | ].
  apply Hnumeric; reflexivity.
Defined.

(** C1 as stated fails: a response whose elevation is the string ["high"]
    carries no usable numeric value, yet the record's elevation is that
    string and not the sample's altitude. *)
Lemma non_numeric_elevation_is_kept :
  usableNumeric (Fulfilled (elevationResponse (JSString "high"))) = None /\
  option_map altitude
    (returned
       (enrich (services googleplexPosition
                  (Fulfilled (elevationResponse (JSString "high")))
                  (Fulfilled [googleplex]))
          googleplexSample true initialState))
  = Some (JSString "high") /\
  JSString "high" <> getProperty googleplexSample "altitude".
Proof.
  split; [ reflexivity | ].
  split; [ reflexivity | ].
  cbn. discriminate.
Qed.

(** ** Fields copied from the sample *)

(** C2.  For every valid sample, [enrich] returns a record whose latitude,
    longitude and accuracy are the sample's. *)
Theorem enrich_copies_sample_fields env sample resolveAddress st :
  validSample sample = true ->
  exists record st',
    enrich env sample resolveAddress st = (Normal record, st') /\
    latitude record = getProperty sample "latitude" /\
    longitude record = getProperty sample "longitude" /\
    accuracy record = getProperty sample "accuracy".
Proof.
  intros Hvalid.
  destruct (enrich_returns env sample resolveAddress st
              (validSample_coercible sample Hvalid)) as (st' & Hrun & _).
  eexists. exists st'. split; [ exact Hrun | ].
  repeat split.
Qed.

Lemma enrich_copies_sample_fields_witness :
  validSample googleplexSample = true /\
  exists record st',
    enrich (services googleplexPosition (Rejected timedOut) (Rejected timedOut))
      googleplexSample true initialState
    = (Normal record, st') /\
    latitude record = JSNumber 37.422%float /\
    longitude record = JSNumber (-122.084)%float /\
    accuracy record = JSNumber 5%float.
Proof.
  split; [ reflexivity | ].
  exact (enrich_copies_sample_fields
           (services googleplexPosition (Rejected timedOut) (Rejected timedOut))
           googleplexSample true initialState eq_refl).
Defined.

(** ** The address *)

(** C3.  With [resolveAddress = true], when the reverse-geocoding lookup
    fails, [enrich] completes normally (nothing is thrown to its caller)
    and the record's address is [null], not a placeholder string. *)
Theorem failed_geocoding_leaves_address_null env sample st reason :
  objectCoercible sample = true ->
  reverseGeocodeAsync env (getProperty sample "latitude") (getProperty sample "longitude")
  = Rejected reason ->
  exists record st',
    enrich env sample true st = (Normal record, st') /\
    address record = None.
Proof.
  intros Hc Hfail.
  destruct (enrich_returns env sample true st Hc) as (st' & Hrun & _).
  eexists. exists st'. split; [ exact Hrun | ].
  cbn [address resolvedAddressFor]. rewrite Hfail. reflexivity.
Qed.

Lemma failed_geocoding_leaves_address_null_witness :
  exists record st',
    enrich (services googleplexPosition
              (Fulfilled (elevationResponse (JSNumber 12.3%float)))
              (Rejected timedOut))
      googleplexSample true initialState
    = (Normal record, st') /\
    address record = None.
Proof.
  exact (failed_geocoding_leaves_address_null
           (services googleplexPosition
              (Fulfilled (elevationResponse (JSNumber 12.3%float)))
              (Rejected timedOut))
           googleplexSample initialState timedOut eq_refl eq_refl).
Defined.

(** C4.  With [resolveAddress = false] the record's address is the fixed
    string ["Address in background not fetched"], for every sample and
    whatever the elevation lookup does. *)
Theorem background_address_is_placeholder env sample st :
  objectCoercible sample = true ->
  exists record st',
    enrich env sample false st = (Normal record, st') /\
    address record = Some "Address in background not fetched".
Proof.
  intros Hc.
  destruct (enrich_returns env sample false st Hc) as (st' & Hrun & _).
  eexists. exists st'. split; [ exact Hrun | reflexivity ].
Qed.

Lemma background_address_is_placeholder_witness :
  exists record st',
    enrich (services googleplexPosition (Rejected timedOut) (Fulfilled [googleplex]))
      googleplexSample false initialState
    = (Normal record, st') /\
    address record = Some "Address in background not fetched".
Proof.
  exact (background_address_is_placeholder
           (services googleplexPosition (Rejected timedOut) (Fulfilled [googleplex]))
           googleplexSample initialState eq_refl).
Defined.

(** C5.  With [resolveAddress = true], when the reverse-geocoding lookup
    succeeds with no candidate, the record's address is the fixed string
    ["Address not found"], which is not the [null] of a failed lookup. *)
Theorem no_candidate_gives_not_found env sample st :
  objectCoercible sample = true ->
  reverseGeocodeAsync env (getProperty sample "latitude") (getProperty sample "longitude")
  = Fulfilled [] ->
  exists record st',
    enrich env sample true st = (Normal record, st') /\
    address record = Some "Address not found" /\
    address record <> None.
Proof.
  intros Hc Hempty.
  destruct (enrich_returns env sample true st Hc) as (st' & Hrun & _).
  eexists. exists st'. split; [ exact Hrun | ].
  cbn [address resolvedAddressFor]. rewrite Hempty.
  split; [ reflexivity | discriminate ].
Qed.

Lemma no_candidate_gives_not_found_witness :
  exists record st',
    enrich (services googleplexPosition (Rejected timedOut) (Fulfilled []))
      googleplexSample true initialState
    = (Normal record, st') /\
    address record = Some "Address not found" /\
    address record <> None.
Proof.
  exact (no_candidate_gives_not_found
           (services googleplexPosition (Rejected timedOut) (Fulfilled []))
           googleplexSample initialState eq_refl eq_refl).
Defined.

(** ** Failure of the pipeline itself *)




(** ** The worked scenario *)

(** C7.  For the sample at 37.422, -122.084 with altitude 10 and accuracy
    5, an elevation response of 12.3 and the one candidate Googleplex /
    Mountain View / CA / USA, [enrich] with [resolveAddress = true]
    returns latitude 37.422, longitude -122.084, elevation 12.3, accuracy 5
    and the address ["Googleplex, Mountain View, CA, USA"]; and in general
    the address is the first candidate's name, city, region and country
    joined by [", "]. *)
Theorem googleplex_scenario :
  (forall st,
      exists st',
        enrich (services googleplexPosition
                  (Fulfilled (elevationResponse (JSNumber 12.3%float)))
                  (Fulfilled [googleplex]))
          googleplexSample true st
        = (Normal {| latitude := JSNumber 37.422%float;
                     longitude := JSNumber (-122.084)%float;
                     altitude := JSNumber 12.3%float;
                     accuracy := JSNumber 5%float;
                     address := Some "Googleplex, Mountain View, CA, USA" |},
           st')) /\
  (forall env sample st n c r k rest,
      objectCoercible sample = true ->
      reverseGeocodeAsync env (getProperty sample "latitude")
        (getProperty sample "longitude")
      = Fulfilled ({| name := Some n; city := Some c;
                      region := Some r; country := Some k |} :: rest) ->
      exists record st',
        enrich env sample true st = (Normal record, st') /\
        address record = Some (String.concat ", " [n; c; r; k])).
Proof.
  split.
  - intros st.
    destruct (enrich_returns
                (services googleplexPosition
                   (Fulfilled (elevationResponse (JSNumber 12.3%float)))
                   (Fulfilled [googleplex]))
                googleplexSample true st eq_refl) as (st' & Hrun & _).
    exists st'. exact Hrun.
  - intros env sample st n c r k rest Hc Hfound.
    destruct (enrich_returns env sample true st Hc) as (st' & Hrun & _).
    eexists. exists st'. split; [ exact Hrun | ].
    cbn [address resolvedAddressFor]. rewrite Hfound. reflexivity.
Qed.

Lemma googleplex_scenario_witness :
  exists record st',
    enrich (services googleplexPosition (Rejected timedOut)
              (Fulfilled [googleplex; googleplex]))
      googleplexSample true initialState
    = (Normal record, st') /\
    address record = Some "Googleplex, Mountain View, CA, USA".
Proof.
  exact (proj2 googleplex_scenario
           (services googleplexPosition (Rejected timedOut)
              (Fulfilled [googleplex; googleplex]))
           googleplexSample initialState
           "Googleplex" "Mountain View" "CA" "USA" [googleplex]
           eq_refl eq_refl).
Defined.

(** ** Independence and determinism *)

(** C8.  The two lookups do not interfere: with the sample and the
    geocoding service fixed, the record's address is the same whatever the
    elevation service does; with the sample and the elevation service
    fixed, the record's elevation is the same whatever the geocoding
    service does. *)
Theorem lookups_do_not_interfere
  position elevation elevation' geocode geocode' sample resolveAddress st :
  option_map address
    (returned
       (enrich {| getCurrentPositionAsync := position;
                  axios_get := elevation;
                  reverseGeocodeAsync := geocode |} sample resolveAddress st))
  = option_map address
      (returned
         (enrich {| getCurrentPositionAsync := position;
                    axios_get := elevation';
                    reverseGeocodeAsync := geocode |} sample resolveAddress st))
  /\
  option_map altitude
    (returned
       (enrich {| getCurrentPositionAsync := position;
                  axios_get := elevation;
                  reverseGeocodeAsync := geocode |} sample resolveAddress st))
  = option_map altitude
      (returned
         (enrich {| getCurrentPositionAsync := position;
                    axios_get := elevation;
                    reverseGeocodeAsync := geocode' |} sample resolveAddress st)).
Proof.
  unfold returned.
  destruct (objectCoercible sample) eqn:Hc.
  - split.
    + destruct (enrich_returns
                  {| getCurrentPositionAsync := position;
                     axios_get := elevation;
                     reverseGeocodeAsync := geocode |}
                  sample resolveAddress st Hc) as (st1 & -> & _).
      destruct (enrich_returns
                  {| getCurrentPositionAsync := position;
                     axios_get := elevation';
                     reverseGeocodeAsync := geocode |}
                  sample resolveAddress st Hc) as (st2 & -> & _).
      destruct resolveAddress; reflexivity.
    + destruct (enrich_returns
                  {| getCurrentPositionAsync := position;
                     axios_get := elevation;
                     reverseGeocodeAsync := geocode |}
                  sample resolveAddress st Hc) as (st1 & -> & _).
      destruct (enrich_returns
                  {| getCurrentPositionAsync := position;
                     axios_get := elevation;
                     reverseGeocodeAsync := geocode' |}
                  sample resolveAddress st Hc) as (st2 & -> & _).
      reflexivity.
  - rewrite !enrich_throws by exact Hc. split; reflexivity.
Qed.

(** C9.  [enrich] is deterministic: called a second time, in the state the
    first call left, with the same sample, option and service responses,
    it completes with the identical record; and a second refresh under the
    same responses stores the record the first one stored. *)
Theorem enrich_twice_same_record env sample resolveAddress st :
  fst (enrich env sample resolveAddress (snd (enrich env sample resolveAddress st)))
  = fst (enrich env sample resolveAddress st)
  /\
  locationData (snd (fetchLocationData env (snd (fetchLocationData env st))))
  = locationData (snd (fetchLocationData env st)).
Proof.
  split.
  - apply enrich_ignores_state.
  - destruct (fetchLocationData_run env st) as (st1 & -> & _ & _ & H1).
    cbn [snd].
    destruct (fetchLocationData_run env st1) as (st2 & -> & _ & _ & H2).
    cbn [snd]. rewrite H2.
    destruct (refreshedRecord env); [ symmetry; exact H1 | reflexivity ].
Qed.

(** ** Failure of the position source *)

(** C10.  When [getCurrentPositionAsync] rejects, the refresh completes
    normally and the stored foreground record is the one stored before, in
    every field; the background record is untouched too and the loading
    flag is down again. *)
Theorem position_failure_keeps_record env st reason :
  getCurrentPositionAsync env = Rejected reason ->
  exists st',
    fetchLocationData env st = (Normal tt, st') /\
    locationData st' = locationData st /\
    backgroundLocation st' = backgroundLocation st /\
    isLoading st' = false.
Proof.
  intros Hfail.
  destruct (fetchLocationData_run env st) as (st' & Hrun & Hloading & Hbg & Hrecord).
  exists st'. unfold refreshedRecord in Hrecord. rewrite Hfail in Hrecord.
  repeat split; assumption.
Qed.

Lemma position_failure_keeps_record_witness :
  exists st',
    fetchLocationData
      (services (Rejected timedOut)
         (Fulfilled (elevationResponse (JSNumber 12.3%float)))
         (Fulfilled [googleplex]))
      refreshedState
    = (Normal tt, st') /\
    locationData st' = locationData refreshedState /\
    backgroundLocation st' = backgroundLocation refreshedState /\
    isLoading st' = false.
Proof.
  exact (position_failure_keeps_record
           (services (Rejected timedOut)
              (Fulfilled (elevationResponse (JSNumber 12.3%float)))
              (Fulfilled [googleplex]))
           refreshedState timedOut eq_refl).
Defined.

(** ** The console after a run *)

(** Once the URL is built, the elevation block warns exactly when reading
    the response threw. *)
Lemma elevation_block_console lookup altitude msg st :
  console
    (snd
       (try_catch
          (elevationResponse <- await lookup ;;
           data <- member elevationResponse "data" ;;
           results <- member data "results" ;;
           first <- member results (Index 0) ;;
           elevation <- optionalMember first "elevation" ;;
           ret (nullish elevation altitude))
          (fun e => console_warn msg ;; ret altitude) st))
  = (console st ++ elevationWarnings lookup msg)%list.
Proof.
  unfold try_catch, bind, elevationWarnings, elevationReadable.
  destruct lookup as [response | reason]; cbn [await ret throw].
  - repeat (step_member; cbn [ret andb]);
      try rewrite optionalMember_run;
      cbn; rewrite ?app_nil_r; reflexivity.
  - reflexivity.
Qed.

Lemma elevation_try_console latitude longitude lookup altitude msg st :
  console
    (snd
       (try_catch
          (templateSubstitution latitude ;;
           templateSubstitution longitude ;;
           elevationResponse <- await lookup ;;
           data <- member elevationResponse "data" ;;
           results <- member data "results" ;;
           first <- member results (Index 0) ;;
           elevation <- optionalMember first "elevation" ;;
           ret (nullish elevation altitude))
          (fun e => console_warn msg ;; ret altitude) st))
  = (console st ++ elevationWarnings (attempted latitude longitude lookup) msg)%list.
Proof.
  rewrite try_after_substitutions. unfold attempted.
  destruct (requestFormed latitude longitude).
  - exact (elevation_block_console lookup altitude msg st).
  - reflexivity.
Qed.

(** The block warns unless the URL was built and the response read. *)
Lemma elevationReadable_attempted latitude longitude lookup :
  elevationReadable (attempted latitude longitude lookup)
  = requestFormed latitude longitude && elevationReadable lookup.
Proof. unfold attempted. destruct (requestFormed latitude longitude); reflexivity. Qed.

Lemma address_block_console lookup st :
  console
    (snd
       (try_catch
          (reverseGeocode <- await lookup ;;
           ret (match hd_error reverseGeocode with
                | Some a =>
                    Some (interpolate (name a) ++ ", " ++ interpolate (city a) ++ ", "
                          ++ interpolate (region a) ++ ", " ++ interpolate (country a))
                | None => Some "Address not found"
                end))
          (fun e => console_warn "Reverse geocode failed" ;; ret None) st))
  = (console st ++ geocodeWarnings lookup)%list.
Proof.
  unfold try_catch, bind, geocodeWarnings.
  destruct lookup as [candidates | reason]; cbn; rewrite ?app_nil_r; reflexivity.
Qed.

Lemma enrichForeground_console env coords st :
  objectCoercible coords = true ->
  console (snd (enrichForeground env coords st))
  = (console st
     ++ elevationWarnings
          (elevationCall env (getProperty coords "latitude") (getProperty coords "longitude"))
          "Elevation fetch failed, using GPS altitude"
     ++ geocodeWarnings
          (reverseGeocodeAsync env (getProperty coords "latitude")
             (getProperty coords "longitude")))%list.
Proof.
  intros Hc. unfold enrichForeground.
  do 4 (unfold bind at 1; rewrite (member_coercible _ _ _ Hc)).
  unfold bind at 1.
  pose proof (elevation_try_console
                (getProperty coords "latitude") (getProperty coords "longitude")
                (axios_get env (getProperty coords "latitude")
                   (getProperty coords "longitude"))
                (getProperty coords "altitude")
                "Elevation fetch failed, using GPS altitude" st) as Hlog1.
  destruct (elevation_try
              (getProperty coords "latitude") (getProperty coords "longitude")
              (axios_get env (getProperty coords "latitude")
                 (getProperty coords "longitude"))
              (getProperty coords "altitude")
              "Elevation fetch failed, using GPS altitude" st)
    as (st1 & Hrun1 & _).
  rewrite Hrun1 in Hlog1 |- *. cbn [snd] in Hlog1.
  cbv beta iota. unfold bind at 1.
  pose proof (address_block_console
                (reverseGeocodeAsync env (getProperty coords "latitude")
                   (getProperty coords "longitude")) st1) as Hlog2.
  destruct (address_block
              (reverseGeocodeAsync env (getProperty coords "latitude")
                 (getProperty coords "longitude")) st1)
    as (st2 & Hrun2 & _).
  rewrite Hrun2 in Hlog2 |- *. cbn [snd] in Hlog2.
  cbv beta iota. unfold ret. cbn [snd].
  rewrite Hlog2, Hlog1, app_assoc. reflexivity.
Qed.

Lemma enrichBackground_console env coords st :
  objectCoercible coords = true ->
  console (snd (enrichBackground env coords st))
  = (console st
     ++ elevationWarnings
          (elevationCall env (getProperty coords "latitude") (getProperty coords "longitude"))
          "Elevation fetch failed in background task")%list.
Proof.
  intros Hc. unfold enrichBackground.
  do 4 (unfold bind at 1; rewrite (member_coercible _ _ _ Hc)).
  unfold bind at 1.
  pose proof (elevation_try_console
                (getProperty coords "latitude") (getProperty coords "longitude")
                (axios_get env (getProperty coords "latitude")
                   (getProperty coords "longitude"))
                (getProperty coords "altitude")
                "Elevation fetch failed in background task" st) as Hlog1.
  destruct (elevation_try
              (getProperty coords "latitude") (getProperty coords "longitude")
              (axios_get env (getProperty coords "latitude")
                 (getProperty coords "longitude"))
              (getProperty coords "altitude")
              "Elevation fetch failed in background task" st)
    as (st1 & Hrun1 & _).
  rewrite Hrun1 in Hlog1 |- *. cbn [snd] in Hlog1.
  cbv beta iota. unfold ret. cbn [snd].
  exact Hlog1.
Qed.

Lemma truthy_coercible v : truthy v = true -> objectCoercible v = true.
Proof. destruct v; simpl; intros H; try discriminate; reflexivity. Qed.

Lemma enrichBackground_throws env coords st :
  objectCoercible coords = false ->
  enrichBackground env coords st
  = (Throw (TypeError "Cannot read properties of undefined or null"), st).
Proof.
  intros Hc. unfold enrichBackground. unfold bind at 1.
  rewrite (member_throws _ _ _ Hc). reflexivity.
Qed.

(** ** Warnings *)

(** X1.  Besides returning its record, [enrich] only writes to the
    console: the three state cells are untouched, and the console grows by
    the elevation warning exactly when the request URL could not be built
    from the latitude and longitude, the elevation call was rejected, or
    [data.results] could not be read off the response (an empty [results]
    or a [null] elevation falls back without a warning), followed on the
    foreground path by the geocoding warning exactly when that call was
    rejected. *)
Theorem enrich_only_warns env sample resolveAddress st :
  objectCoercible sample = true ->
  sameCells st (snd (enrich env sample resolveAddress st)) /\
  console (snd (enrich env sample resolveAddress st))
  = (console st
     ++ (if requestFormed (getProperty sample "latitude")
              (getProperty sample "longitude")
            && elevationReadable
                 (axios_get env (getProperty sample "latitude")
                    (getProperty sample "longitude"))
         then []
         else [Warn (if resolveAddress
                     then "Elevation fetch failed, using GPS altitude"
                     else "Elevation fetch failed in background task")])
     ++ (if resolveAddress
         then geocodeWarnings
                (reverseGeocodeAsync env (getProperty sample "latitude")
                   (getProperty sample "longitude"))
         else []))%list.
Proof.
  intros Hc. split.
  - destruct (enrich_returns env sample resolveAddress st Hc) as (st' & -> & Hcells).
    exact Hcells.
  - unfold enrich. destruct resolveAddress.
    + rewrite (enrichForeground_console env sample st Hc).
      unfold elevationWarnings, elevationCall.
      rewrite elevationReadable_attempted. reflexivity.
    + rewrite (enrichBackground_console env sample st Hc), app_nil_r.
      unfold elevationWarnings, elevationCall.
      rewrite elevationReadable_attempted. reflexivity.
Qed.

Lemma enrich_only_warns_witness :
  console
    (snd (enrich (services googleplexPosition (Fulfilled emptyResults) (Rejected timedOut))
            googleplexSample true initialState))
  = [Warn "Reverse geocode failed"] /\
  console
    (snd (enrich (services googleplexPosition (Fulfilled (JSString "<html>"))
                    (Fulfilled []))
            googleplexSample false initialState))
  = [Warn "Elevation fetch failed in background task"] /\
  console
    (snd (enrich (services googleplexPosition
                    (Fulfilled (elevationResponse (JSNumber 12.3%float)))
                    (Fulfilled []))
            unprintableSample false initialState))
  = [Warn "Elevation fetch failed in background task"].
Proof.
  split; [ | split ].
  - exact (proj2 (enrich_only_warns
                    (services googleplexPosition (Fulfilled emptyResults)
                       (Rejected timedOut))
                    googleplexSample true initialState eq_refl)).
  - exact (proj2 (enrich_only_warns
                    (services googleplexPosition (Fulfilled (JSString "<html>"))
                       (Fulfilled []))
                    googleplexSample false initialState eq_refl)).
  - exact (proj2 (enrich_only_warns
                    (services googleplexPosition
                       (Fulfilled (elevationResponse (JSNumber 12.3%float)))
                       (Fulfilled []))
                    unprintableSample false initialState eq_refl)).
Defined.

(** X2.  The two paths repeat the same elevation block: for one sample and
    one set of services, the foreground and the background record carry
    the same latitude, longitude, elevation and accuracy, and differ at
    most in the address. *)
Theorem paths_agree_on_measurements env sample st st' :
  objectCoercible sample = true ->
  exists foreground background,
    returned (enrich env sample true st) = Some foreground /\
    returned (enrich env sample false st') = Some background /\
    latitude foreground = latitude background /\
    longitude foreground = longitude background /\
    altitude foreground = altitude background /\
    accuracy foreground = accuracy background.
Proof.
  intros Hc. unfold returned.
  destruct (enrich_returns env sample true st Hc) as (st1 & -> & _).
  destruct (enrich_returns env sample false st' Hc) as (st2 & -> & _).
  do 2 eexists. repeat split.
Qed.

Lemma paths_agree_on_measurements_witness :
  exists foreground background,
    returned
      (enrich (services googleplexPosition
                 (Fulfilled (elevationResponse (JSNumber 12.3%float)))
                 (Fulfilled [googleplex]))
         googleplexSample true initialState)
    = Some foreground /\
    returned
      (enrich (services googleplexPosition
                 (Fulfilled (elevationResponse (JSNumber 12.3%float)))
                 (Fulfilled [googleplex]))
         googleplexSample false refreshedState)
    = Some background /\
    latitude foreground = latitude background /\
    longitude foreground = longitude background /\
    altitude foreground = altitude background /\
    accuracy foreground = accuracy background.
Proof.
  exact (paths_agree_on_measurements
           (services googleplexPosition
              (Fulfilled (elevationResponse (JSNumber 12.3%float)))
              (Fulfilled [googleplex]))
           googleplexSample initialState refreshedState eq_refl).
Defined.

(** ** The background task *)

(** X3.  When the task is handed an error it only reports it with
    [console.error]: the task completes normally, the console gains that
    one entry and no other (no elevation warning, whatever the elevation
    service would answer), and none of the three state cells changes, so
    no background record is stored, whatever [data] holds. *)
Theorem locationTask_error_only_logs env body st :
  objectCoercible body = true ->
  truthy (getProperty body "error") = true ->
  exists st',
    locationTask env body st = (Normal tt, st') /\
    sameCells st st' /\
    console st' = (console st ++ [ErrorValue (getProperty body "error")])%list.
Proof.
  intros Hb Herror. unfold locationTask.
  unfold bind at 1. rewrite (member_coercible _ _ _ Hb).
  unfold bind at 1. rewrite (member_coercible _ _ _ Hb).
  rewrite Herror. eexists. split; [ reflexivity | ]. repeat split.
Qed.

Lemma locationTask_error_only_logs_witness :
  exists st',
    locationTask
      (services googleplexPosition (Rejected timedOut) (Rejected timedOut))
      (JSObject [("data", JSObject [("locations", JSArray [JSObject [("coords", googleplexSample)]])]);
                 ("error", JSObject [("code", JSString "E_LOCATION")])])
      initialState
    = (Normal tt, st') /\
    sameCells initialState st' /\
    console st' = [ErrorValue (JSObject [("code", JSString "E_LOCATION")])].
Proof.
  exact (locationTask_error_only_logs
           (services googleplexPosition (Rejected timedOut) (Rejected timedOut))
           (JSObject [("data", JSObject [("locations", JSArray [JSObject [("coords", googleplexSample)]])]);
                      ("error", JSObject [("code", JSString "E_LOCATION")])])
           initialState eq_refl eq_refl).
Defined.

(** X4.  With neither an error nor data the task does nothing at all: it
    completes normally and leaves the state, console included, as it was. *)
Theorem locationTask_without_data_is_silent env body st :
  objectCoercible body = true ->
  truthy (getProperty body "error") = false ->
  truthy (getProperty body "data") = false ->
  locationTask env body st = (Normal tt, st).
Proof.
  intros Hb Herror Hdata. unfold locationTask.
  unfold bind at 1. rewrite (member_coercible _ _ _ Hb).
  unfold bind at 1. rewrite (member_coercible _ _ _ Hb).
  rewrite Herror, Hdata. reflexivity.
Qed.

Lemma locationTask_without_data_is_silent_witness :
  locationTask
    (services googleplexPosition (Rejected timedOut) (Rejected timedOut))
    (JSObject [("data", JSNull); ("error", JSNull)]) refreshedState
  = (Normal tt, refreshedState).
Proof.
  exact (locationTask_without_data_is_silent
           (services googleplexPosition (Rejected timedOut) (Rejected timedOut))
           (JSObject [("data", JSNull); ("error", JSNull)]) refreshedState
           eq_refl eq_refl eq_refl).
Defined.

(** X5.  The task does not guard the reading of [locations[0].coords]:
    with data but no readable first sample (no [locations], an empty
    batch, a first entry without [coords]) it throws a [TypeError] out of
    the callback and the state stays as it was. *)
Theorem locationTask_without_sample_throws env body st :
  objectCoercible body = true ->
  truthy (getProperty body "error") = false ->
  truthy (getProperty body "data") = true ->
  objectCoercible (firstCoords body) = false ->
  locationTask env body st
  = (Throw (TypeError "Cannot read properties of undefined or null"), st).
Proof.
  intros Hb Herror Hdata Hcoords. unfold locationTask.
  unfold bind at 1. rewrite (member_coercible _ _ _ Hb).
  unfold bind at 1. rewrite (member_coercible _ _ _ Hb).
  rewrite Herror, Hdata.
  unfold firstCoords in Hcoords.
  unfold bind at 1. rewrite (member_coercible _ _ _ (truthy_coercible _ Hdata)).
  unfold bind at 1. step_member; [ | reflexivity ].
  unfold bind at 1. step_member; [ | reflexivity ].
  unfold bind at 1. rewrite (enrichBackground_throws env _ st Hcoords).
  reflexivity.
Qed.

Lemma locationTask_without_sample_throws_witness :
  locationTask
    (services googleplexPosition
       (Fulfilled (elevationResponse (JSNumber 12.3%float))) (Fulfilled []))
    (taskBatch []) refreshedState
  = (Throw (TypeError "Cannot read properties of undefined or null"), refreshedState).
Proof.
  exact (locationTask_without_sample_throws
           (services googleplexPosition
              (Fulfilled (elevationResponse (JSNumber 12.3%float))) (Fulfilled []))
           (taskBatch []) refreshedState eq_refl eq_refl eq_refl eq_refl).
Defined.

(** X6.  With data and a readable first sample the task completes
    normally and stores in the background cell the record of the
    background path for [locations[0].coords]; the foreground record and
    the loading flag are untouched. *)
Theorem locationTask_enriches_first_sample env body st :
  objectCoercible body = true ->
  truthy (getProperty body "error") = false ->
  truthy (getProperty body "data") = true ->
  objectCoercible (firstCoords body) = true ->
  exists st',
    locationTask env body st = (Normal tt, st') /\
    backgroundLocation st' = returned (enrich env (firstCoords body) false st) /\
    locationData st' = locationData st /\
    isLoading st' = isLoading st.
Proof.
  intros Hb Herror Hdata Hcoords. unfold locationTask.
  unfold bind at 1. rewrite (member_coercible _ _ _ Hb).
  unfold bind at 1. rewrite (member_coercible _ _ _ Hb).
  rewrite Herror, Hdata.
  unfold returned, enrich.
  unfold firstCoords in Hcoords |- *.
  unfold bind at 1. rewrite (member_coercible _ _ _ (truthy_coercible _ Hdata)).
  unfold bind at 1. step_member;
    [ | rewrite (getProperty_nothing _ (Index 0) E) in Hcoords; discriminate Hcoords ].
  unfold bind at 1. step_member;
    [ | rewrite (getProperty_nothing _ (Named "coords") E0) in Hcoords;
        discriminate Hcoords ].
  unfold bind at 1.
  destruct (enrichBackground_returns env _ st Hcoords) as (st1 & -> & H1 & H2 & _).
  cbn. eexists. repeat split; assumption.
Qed.

Lemma locationTask_enriches_first_sample_witness :
  exists st',
    locationTask
      (services googleplexPosition (Rejected timedOut) (Fulfilled []))
      (taskBatch [JSObject [("coords", googleplexSample)]]) refreshedState
    = (Normal tt, st') /\
    backgroundLocation st'
    = Some {| latitude := JSNumber 37.422%float;
              longitude := JSNumber (-122.084)%float;
              altitude := JSNumber 10%float;
              accuracy := JSNumber 5%float;
              address := Some "Address in background not fetched" |} /\
    locationData st' = locationData refreshedState /\
    isLoading st' = isLoading refreshedState.
Proof.
  exact (locationTask_enriches_first_sample
           (services googleplexPosition (Rejected timedOut) (Fulfilled []))
           (taskBatch [JSObject [("coords", googleplexSample)]]) refreshedState
           eq_refl eq_refl eq_refl eq_refl).
Defined.

(** Of a batch of several locations the task reads only the first: the
    entries after it change neither the completion nor the final state. *)
Lemma locationTask_ignores_later_locations env first rest st :
  locationTask env (taskBatch (first :: rest)) st
  = locationTask env (taskBatch [first]) st.
Proof. reflexivity. Qed.

Lemma locationTask_cells env body st :
  exists completion st',
    locationTask env body st = (completion, st') /\
    locationData st' = locationData st /\
    isLoading st' = isLoading st.
Proof.
  unfold locationTask.
  unfold bind at 1. step_member; [ | do 2 eexists; repeat split ].
  unfold bind at 1. rewrite (member_coercible _ _ _ E).
  destruct (truthy (getProperty body "error")); [ do 2 eexists; repeat split | ].
  destruct (truthy (getProperty body "data")); [ | do 2 eexists; repeat split ].
  unfold bind at 1. step_member; [ | do 2 eexists; repeat split ].
  unfold bind at 1. step_member; [ | do 2 eexists; repeat split ].
  unfold bind at 1. step_member; [ | do 2 eexists; repeat split ].
  unfold bind at 1.
  destruct (objectCoercible
              (getProperty
                 (getProperty (getProperty (getProperty body "data") "locations")
                    (Index 0)) "coords")) eqn:Hcoords.
  - destruct (enrichBackground_returns env _ st Hcoords) as (st1 & -> & H1 & H2 & _).
    cbn. do 2 eexists. repeat split; assumption.
  - rewrite (enrichBackground_throws env _ st Hcoords).
    do 2 eexists. repeat split.
Qed.

(** X7.  Whatever its argument and whatever the elevation service does,
    the background task never writes the foreground record or the loading
    flag. *)
Theorem locationTask_keeps_foreground env body st :
  locationData (snd (locationTask env body st)) = locationData st /\
  isLoading (snd (locationTask env body st)) = isLoading st.
Proof.
  destruct (locationTask_cells env body st) as (completion & st' & -> & H1 & H2).
  split; assumption.
Qed.

(** ** The foreground refresh *)

(** X8.  A refresh never throws, whatever the three services do and
    whatever the position object looks like: it completes normally with
    the loading flag down and the background record untouched. *)
Theorem fetchLocationData_never_throws env st :
  exists st',
    fetchLocationData env st = (Normal tt, st') /\
    isLoading st' = false /\
    backgroundLocation st' = backgroundLocation st.
Proof.
  destruct (fetchLocationData_run env st) as (st' & Hrun & Hloading & Hbg & _).
  exists st'. repeat split; assumption.
Qed.

(** X9.  When the refresh has no sample to enrich, because the position
    source rejected or because the position it gave has no readable
    [coords], it logs exactly one [console.error] entry carrying what was
    thrown, makes no lookup warning, and keeps the stored record. *)
Theorem refresh_without_sample_logs_error env st e :
  positionFailure env = Some e ->
  fetchLocationData env st
  = (Normal tt,
     {| locationData := locationData st;
        isLoading := false;
        backgroundLocation := backgroundLocation st;
        console := console st ++ [Error "Error fetching location data:" e] |}).
Proof.
  unfold positionFailure, fetchLocationData.
  unfold bind at 1. cbn [setIsLoading].
  unfold try_finally, try_catch.
  destruct (getCurrentPositionAsync env) as [location | reason].
  - unfold bind at 1. cbn [await ret].
    unfold bind at 1. step_member; cbn [andb].
    + destruct (objectCoercible (getProperty location "coords")) eqn:Ec;
        [ discriminate | ].
      intros [= <-]. unfold bind at 1.
      unfold enrichForeground. unfold bind at 1.
      rewrite (member_throws _ _ _ Ec). reflexivity.
    + intros [= <-]. reflexivity.
  - intros [= <-]. reflexivity.
Qed.

Lemma refresh_without_sample_logs_error_witness :
  fetchLocationData
    (services (Fulfilled (JSObject [("timestamp", JSNumber 0%float)]))
       (Fulfilled (elevationResponse (JSNumber 12.3%float)))
       (Fulfilled [googleplex]))
    refreshedState
  = (Normal tt,
     {| locationData := locationData refreshedState;
        isLoading := false;
        backgroundLocation := None;
        console :=
          [Warn "Reverse geocode failed";
           Error "Error fetching location data:"
             (TypeError "Cannot read properties of undefined or null")] |}).
Proof.
  exact (refresh_without_sample_logs_error
           (services (Fulfilled (JSObject [("timestamp", JSNumber 0%float)]))
              (Fulfilled (elevationResponse (JSNumber 12.3%float)))
              (Fulfilled [googleplex]))
           refreshedState
           (TypeError "Cannot read properties of undefined or null") eq_refl).
Defined.

(** X10.  A refresh that has a sample replaces the stored record as a
    whole: the record it stores does not depend on the state before, so no
    field of the previous record survives; in particular a failed
    geocoding leaves the address [null] even when an address was shown
    before. *)
Theorem refresh_replaces_record env st1 st2 :
  positionFailure env = None ->
  locationData (snd (fetchLocationData env st1))
  = locationData (snd (fetchLocationData env st2)) /\
  (forall location reason,
      getCurrentPositionAsync env = Fulfilled location ->
      reverseGeocodeAsync env
        (getProperty (getProperty location "coords") "latitude")
        (getProperty (getProperty location "coords") "longitude")
      = Rejected reason ->
      address (locationData (snd (fetchLocationData env st1))) = None).
Proof.
  intros Hsample.
  destruct (fetchLocationData_run env st1) as (st1' & -> & _ & _ & H1).
  destruct (fetchLocationData_run env st2) as (st2' & -> & _ & _ & H2).
  cbn [snd]. unfold positionFailure in Hsample. unfold refreshedRecord in H1, H2.
  destruct (getCurrentPositionAsync env) as [location | reason]; [ | discriminate ].
  cbv zeta in H1, H2.
  destruct (objectCoercible location && objectCoercible (getProperty location "coords"));
    [ | discriminate ].
  split.
  - rewrite H1, H2. reflexivity.
  - intros location' reason [= <-] Hfail. rewrite H1. cbn [address].
    rewrite Hfail. reflexivity.
Qed.

Lemma refresh_replaces_record_witness :
  locationData
    (snd (fetchLocationData
            (services googleplexPosition (Rejected timedOut) (Rejected timedOut))
            refreshedState))
  = locationData
      (snd (fetchLocationData
              (services googleplexPosition (Rejected timedOut) (Rejected timedOut))
              initialState)) /\
  address
    (locationData
       (snd (fetchLocationData
               (services googleplexPosition (Rejected timedOut) (Rejected timedOut))
               refreshedState)))
  = None.
Proof.
  split.
  - exact (proj1 (refresh_replaces_record
                    (services googleplexPosition (Rejected timedOut) (Rejected timedOut))
                    refreshedState initialState eq_refl)).
  - exact (proj2 (refresh_replaces_record
                    (services googleplexPosition (Rejected timedOut) (Rejected timedOut))
                    refreshedState initialState eq_refl)
             (JSObject [("coords", googleplexSample)]) timedOut eq_refl eq_refl).
Defined.

(** ** The first refresh, behind the foreground permission *)

(** X11.  [initializeLocationUpdates] never throws: a rejected permission
    request, a permission response that cannot be read, a denied
    permission and every failure of the refresh all end in a normal
    completion, with the background record untouched. *)
Theorem initializeLocationUpdates_never_throws loc env st :
  exists st',
    initializeLocationUpdates loc env st = (Normal tt, st') /\
    backgroundLocation st' = backgroundLocation st.
Proof.
  unfold initializeLocationUpdates, try_catch.
  unfold bind at 1.
  destruct (requestForegroundPermissionsAsync loc) as [response | reason];
    cbn [await ret throw].
  - unfold bind at 1. step_member.
    + destruct (negb (strictEqualsString (getProperty response "status") "granted")).
      * eexists. split; reflexivity.
      * destruct (fetchLocationData_run env st) as (st' & -> & _ & Hbg & _).
        exists st'. split; [ reflexivity | exact Hbg ].
    + eexists. split; reflexivity.
  - eexists. split; reflexivity.
Qed.

(** X12.  When the permission status is anything but the string
    ["granted"], the component only warns: no refresh is started, so the
    stored record and the loading flag stay as they were even though a
    position is available. *)
Theorem initializeLocationUpdates_denied_only_warns loc env st response :
  requestForegroundPermissionsAsync loc = Fulfilled response ->
  objectCoercible response = true ->
  strictEqualsString (getProperty response "status") "granted" = false ->
  exists st',
    initializeLocationUpdates loc env st = (Normal tt, st') /\
    sameCells st st' /\
    console st' = (console st ++ [Warn "Permission to access location was denied"])%list.
Proof.
  intros Hrequest Hc Hstatus.
  unfold initializeLocationUpdates, try_catch.
  unfold bind at 1. rewrite Hrequest. cbn [await ret].
  unfold bind at 1. rewrite (member_coercible _ _ _ Hc).
  rewrite Hstatus. cbn [negb].
  eexists. split; [ reflexivity | ]. repeat split.
Qed.

Lemma initializeLocationUpdates_denied_only_warns_witness :
  exists st',
    initializeLocationUpdates (locationModule (JSString "denied"))
      (services googleplexPosition
         (Fulfilled (elevationResponse (JSNumber 12.3%float)))
         (Fulfilled [googleplex]))
      initialState
    = (Normal tt, st') /\
    sameCells initialState st' /\
    console st' = [Warn "Permission to access location was denied"].
Proof.
  exact (initializeLocationUpdates_denied_only_warns
           (locationModule (JSString "denied"))
           (services googleplexPosition
              (Fulfilled (elevationResponse (JSNumber 12.3%float)))
              (Fulfilled [googleplex]))
           initialState (JSObject [("status", JSString "denied")])
           eq_refl eq_refl eq_refl).
Defined.

(** X13.  When the permission is granted, [initializeLocationUpdates] is
    the refresh: same completion, same final state. *)
Theorem initializeLocationUpdates_granted_is_refresh loc env st :
  foregroundGranted loc = true ->
  initializeLocationUpdates loc env st = fetchLocationData env st.
Proof.
  unfold foregroundGranted, initializeLocationUpdates, try_catch.
  unfold bind at 1.
  destruct (requestForegroundPermissionsAsync loc) as [response | reason];
    [ | discriminate ].
  intros Hgranted. cbn [await ret].
  unfold bind at 1.
  destruct (objectCoercible response) eqn:Hc;
    [ | rewrite (getProperty_nothing _ _ Hc) in Hgranted; discriminate Hgranted ].
  rewrite (member_coercible _ _ _ Hc), Hgranted. cbn [negb].
  destruct (fetchLocationData_run env st) as (st' & -> & _).
  reflexivity.
Qed.

Lemma initializeLocationUpdates_granted_is_refresh_witness :
  initializeLocationUpdates (locationModule (JSString "granted"))
    (services googleplexPosition (Rejected timedOut) (Fulfilled []))
    initialState
  = fetchLocationData
      (services googleplexPosition (Rejected timedOut) (Fulfilled []))
      initialState.
Proof.
  exact (initializeLocationUpdates_granted_is_refresh
           (locationModule (JSString "granted"))
           (services googleplexPosition (Rejected timedOut) (Fulfilled []))
           initialState eq_refl).
Defined.

(** ** Starting and stopping the background updates *)

(** X14.  [stopBackgroundLocationUpdates] never throws.  It always
    commands the stop of the task [background-location-task]; when the
    command succeeds it logs that the updates stopped, when it is rejected
    it reports the reason with [console.error] instead, and the three
    state cells are untouched either way. *)
Theorem stopBackgroundLocationUpdates_never_throws loc w :
  exists w',
    stopBackgroundLocationUpdates loc w = (Normal tt, w') /\
    sameCells (component w) (component w') /\
    effects w'
    = (effects w
       ++ StopLocationUpdates "background-location-task"
       :: match stopLocationUpdatesAsync loc "background-location-task" with
          | Fulfilled _ => [ConsoleLog "Background location updates stopped"]
          | Rejected _ => []
          end)%list /\
    console (component w')
    = (console (component w)
       ++ match stopLocationUpdatesAsync loc "background-location-task" with
          | Fulfilled _ => []
          | Rejected reason =>
              [Error "Error stopping background location updates:" (Reason reason)]
          end)%list.
Proof.
  unfold stopBackgroundLocationUpdates, try_catchW, bindW, lift, emit,
    LOCATION_TASK_NAME.
  cbn [component effects].
  destruct (stopLocationUpdatesAsync loc "background-location-task")
    as [[] | reason]; cbn.
  - eexists. split; [ reflexivity | ]. cbn.
    rewrite app_nil_r, <- app_assoc. repeat split.
  - eexists. split; [ reflexivity | ]. cbn. repeat split.
Qed.

(** X15.  [startBackgroundLocationUpdates] commands the start of the
    updates exactly when the background permission response carries the
    status ["granted"], and then for the task [background-location-task]
    with high accuracy, a 20000 ms time interval and a 10 m distance
    interval; otherwise it issues no command at all.  The three state
    cells are untouched in every case. *)
Theorem startBackgroundLocationUpdates_needs_permission loc w :
  effects (snd (startBackgroundLocationUpdates loc w))
  = (effects w
     ++ if backgroundGranted loc
        then [StartLocationUpdates "background-location-task"
                {| LocationTaskOptions.accuracy := High;
                   LocationTaskOptions.timeInterval := 20000%N;
                   LocationTaskOptions.distanceInterval := 10%N;
                   LocationTaskOptions.showsBackgroundLocationIndicator := true |}]
        else [])%list /\
  sameCells (component w) (component (snd (startBackgroundLocationUpdates loc w))).
Proof.
  unfold startBackgroundLocationUpdates, backgroundGranted, bindW, lift, emit,
    LOCATION_TASK_NAME, backgroundOptions.
  destruct (requestBackgroundPermissionsAsync loc) as [response | reason];
    cbn [await ret throw component effects snd].
  - destruct (objectCoercible response) eqn:Hc.
    + rewrite (member_coercible _ _ _ Hc). cbn [component effects].
      destruct (strictEqualsString (getProperty response "status") "granted").
      * cbn [component effects].
        destruct (startLocationUpdatesAsync loc _ _) as [[] | reason];
          cbn; repeat split.
      * cbn. rewrite app_nil_r. repeat split.
    + rewrite (member_throws _ _ _ Hc), (getProperty_nothing _ _ Hc).
      cbn. rewrite app_nil_r. repeat split.
  - cbn. rewrite app_nil_r. repeat split.
Qed.

(** X16.  Unlike the stop, the start catches nothing: a rejected
    permission request is thrown to the caller before any command is
    issued, and with the permission granted a rejected start command is
    thrown to the caller too; the component's state is left as it was. *)
Theorem startBackgroundLocationUpdates_propagates_rejection loc w reason :
  (requestBackgroundPermissionsAsync loc = Rejected reason ->
   startBackgroundLocationUpdates loc w = (Throw (Reason reason), w)) /\
  (backgroundGranted loc = true ->
   startLocationUpdatesAsync loc LOCATION_TASK_NAME backgroundOptions = Rejected reason ->
   exists w',
     startBackgroundLocationUpdates loc w = (Throw (Reason reason), w') /\
     component w' = component w).
Proof.
  unfold startBackgroundLocationUpdates, backgroundGranted, bindW, lift, emit.
  split.
  - intros ->. cbn. destruct w; reflexivity.
  - destruct (requestBackgroundPermissionsAsync loc) as [response | reason'];
      [ | discriminate ].
    intros Hgranted Hstart. cbn [await ret component effects].
    destruct (objectCoercible response) eqn:Hc;
      [ | rewrite (getProperty_nothing _ _ Hc) in Hgranted; discriminate Hgranted ].
    rewrite (member_coercible _ _ _ Hc). cbn [component effects].
    rewrite Hgranted. cbn [component effects]. rewrite Hstart. cbn.
    eexists. split; reflexivity.
Qed.

Lemma startBackgroundLocationUpdates_propagates_rejection_witness :
  exists w',
    startBackgroundLocationUpdates
      {| requestForegroundPermissionsAsync := Rejected timedOut;
         requestBackgroundPermissionsAsync :=
           Fulfilled (JSObject [("status", JSString "granted")]);
         startLocationUpdatesAsync := fun _ _ => Rejected timedOut;
         stopLocationUpdatesAsync := fun _ => Fulfilled tt |}
      {| component := refreshedState; effects := [] |}
    = (Throw (Reason timedOut), w') /\
    component w' = refreshedState.
Proof.
  exact (proj2 (startBackgroundLocationUpdates_propagates_rejection
                  {| requestForegroundPermissionsAsync := Rejected timedOut;
                     requestBackgroundPermissionsAsync :=
                       Fulfilled (JSObject [("status", JSString "granted")]);
                     startLocationUpdatesAsync := fun _ _ => Rejected timedOut;
                     stopLocationUpdatesAsync := fun _ => Fulfilled tt |}
                  {| component := refreshedState; effects := [] |} timedOut)
           eq_refl eq_refl).
Defined.

(** ** The screen *)

Lemma toFixed_number formatFixed v digits st :
  isNumber v = true ->
  exists text, toFixed formatFixed v digits st = (Normal text, st).
Proof.
  destruct v; simpl; intros H; try discriminate. eexists. reflexivity.
Qed.

Lemma toFixed_not_number formatFixed v digits st :
  isNumber v = false ->
  exists msg, toFixed formatFixed v digits st = (Throw (TypeError msg), st).
Proof.
  destruct v; simpl; intros H; try discriminate; eexists; reflexivity.
Qed.

Lemma metersOrFetching_shown formatFixed v st :
  negb (truthy v) || isNumber v = true ->
  exists text, metersOrFetching formatFixed v st = (Normal text, st).
Proof.
  unfold metersOrFetching. destruct (truthy v); cbn [negb orb].
  - intros Hnumber. unfold bind.
    destruct (toFixed_number formatFixed v 2 st Hnumber) as (text & ->).
    eexists. reflexivity.
  - intros _. eexists. reflexivity.
Qed.

Lemma metersOrFetching_throws formatFixed v st :
  negb (truthy v) || isNumber v = false ->
  exists msg, metersOrFetching formatFixed v st = (Throw (TypeError msg), st).
Proof.
  unfold metersOrFetching. destruct (truthy v); cbn [negb orb]; [ | discriminate ].
  intros Hnumber. unfold bind.
  destruct (toFixed_not_number formatFixed v 2 st Hnumber) as (msg & ->).
  eexists. reflexivity.
Qed.

Lemma render_shown formatFixed st :
  renderable (locationData st) = true ->
  exists screen,
    render formatFixed st = (Normal screen, st) /\
    loadingText screen = (if isLoading st then Some "Loading..." else None).
Proof.
  unfold renderable. intros H.
  apply andb_prop in H. destruct H as (H & Hacc).
  apply andb_prop in H. destruct H as (H & Halt).
  apply andb_prop in H. destruct H as (Hlat & Hlon).
  unfold render. cbv zeta.
  unfold bind at 1.
  destruct (toFixed_number formatFixed _ 6 st Hlat) as (lat & ->).
  unfold bind at 1.
  destruct (toFixed_number formatFixed _ 6 st Hlon) as (lon & ->).
  unfold bind at 1.
  destruct (metersOrFetching_shown formatFixed _ st Halt) as (elevation & ->).
  unfold bind at 1.
  destruct (metersOrFetching_shown formatFixed _ st Hacc) as (acc & ->).
  eexists. split; reflexivity.
Qed.

Lemma render_throws formatFixed st :
  renderable (locationData st) = false ->
  exists msg, render formatFixed st = (Throw (TypeError msg), st).
Proof.
  unfold renderable, render. cbv zeta. intros H.
  unfold bind at 1.
  destruct (isNumber (latitude (locationData st))) eqn:Hlat;
    [ | destruct (toFixed_not_number formatFixed _ 6 st Hlat) as (msg & ->);
        eexists; reflexivity ].
  destruct (toFixed_number formatFixed _ 6 st Hlat) as (lat & ->).
  unfold bind at 1.
  destruct (isNumber (longitude (locationData st))) eqn:Hlon;
    [ | destruct (toFixed_not_number formatFixed _ 6 st Hlon) as (msg & ->);
        eexists; reflexivity ].
  destruct (toFixed_number formatFixed _ 6 st Hlon) as (lon & ->).
  unfold bind at 1.
  destruct (negb (truthy (altitude (locationData st)))
            || isNumber (altitude (locationData st))) eqn:Halt;
    [ | destruct (metersOrFetching_throws formatFixed _ st Halt) as (msg & ->);
        eexists; reflexivity ].
  destruct (metersOrFetching_shown formatFixed _ st Halt) as (elevation & ->).
  unfold bind at 1.
  cbn [andb] in H.
  destruct (metersOrFetching_throws formatFixed _ st H) as (msg & ->).
  eexists. reflexivity.
Qed.

Lemma numberOrNullish_shown v :
  numberOrNullish v = true -> negb (truthy v) || isNumber v = true.
Proof.
  destruct v; simpl; intros H; try discriminate; try reflexivity.
  apply orb_true_r.
Qed.

(** X17.  Rendering throws a [TypeError] exactly when the stored record
    cannot be shown: a latitude or longitude that is not a number, or an
    elevation or accuracy that is truthy without being a number.  For
    every other record it returns the screen and changes nothing. *)
Theorem render_throws_iff_not_renderable formatFixed st :
  (renderable (locationData st) = true ->
   exists screen, render formatFixed st = (Normal screen, st)) /\
  (renderable (locationData st) = false ->
   exists msg, render formatFixed st = (Throw (TypeError msg), st)).
Proof.
  split.
  - intros H. destruct (render_shown formatFixed st H) as (screen & Hrun & _).
    exists screen. exact Hrun.
  - exact (render_throws formatFixed st).
Qed.

Lemma render_throws_iff_not_renderable_witness :
  (exists screen, render someDigits refreshedState = (Normal screen, refreshedState)) /\
  (exists msg,
      render someDigits
        {| locationData :=
             {| latitude := JSUndefined;
                longitude := JSNumber (-122.084)%float;
                altitude := JSNumber 12.3%float;
                accuracy := JSNumber 5%float;
                address := None |};
           isLoading := false;
           backgroundLocation := None;
           console := [] |}
      = (Throw (TypeError msg),
         {| locationData :=
              {| latitude := JSUndefined;
                 longitude := JSNumber (-122.084)%float;
                 altitude := JSNumber 12.3%float;
                 accuracy := JSNumber 5%float;
                 address := None |};
            isLoading := false;
            backgroundLocation := None;
            console := [] |})).
Proof.
  split.
  - exact (proj1 (render_throws_iff_not_renderable someDigits refreshedState) eq_refl).
  - exact (proj2 (render_throws_iff_not_renderable someDigits
                    {| locationData :=
                         {| latitude := JSUndefined;
                            longitude := JSNumber (-122.084)%float;
                            altitude := JSNumber 12.3%float;
                            accuracy := JSNumber 5%float;
                            address := None |};
                       isLoading := false;
                       backgroundLocation := None;
                       console := [] |}) eq_refl).
Defined.

(** X18.  The screen tells a missing value from a fetched one by
    truthiness alone: whenever it renders, a falsy elevation or accuracy
    is shown as ["Fetching..."], so an elevation of exactly 0 metres that
    the service did return is shown as still being fetched; and an
    address that is [null] or empty is shown as ["Fetching..."] too. *)
Theorem falsy_fields_show_fetching formatFixed st screen :
  returned (render formatFixed st) = Some screen ->
  (truthy (altitude (locationData st)) = false ->
   elevationText screen = "🗻 Elevation: Fetching...") /\
  (truthy (accuracy (locationData st)) = false ->
   accuracyText screen = "🎯 Accuracy: Fetching...") /\
  (address (locationData st) = None \/ address (locationData st) = Some EmptyString ->
   addressText screen = "📍 Address: Fetching...").
Proof.
  unfold returned, render. cbv zeta. unfold bind, metersOrFetching.
  destruct (latitude (locationData st)); cbn [toFixed ret throw fst];
    try discriminate.
  destruct (longitude (locationData st)); cbn [toFixed ret throw fst];
    try discriminate.
  destruct (truthy (altitude (locationData st))) eqn:Halt;
    [ destruct (altitude (locationData st)); cbn [toFixed ret throw fst];
      try discriminate | cbn [ret fst] ];
    (destruct (truthy (accuracy (locationData st))) eqn:Hacc;
     [ destruct (accuracy (locationData st)); cbn [toFixed ret throw fst];
       try discriminate | cbn [ret fst] ]);
    intros [= <-]; cbn [elevationText accuracyText addressText];
    (repeat split; try discriminate; try reflexivity;
     intros [-> | ->]; reflexivity).
Qed.

Lemma falsy_fields_show_fetching_witness :
  altitude (locationData (snd (fetchLocationData seaLevelServices initialState)))
  = JSNumber 0%float /\
  exists screen,
    returned (render someDigits (snd (fetchLocationData seaLevelServices initialState)))
    = Some screen /\
    elevationText screen = "🗻 Elevation: Fetching..." /\
    addressText screen = "📍 Address: Fetching...".
Proof.
  split; [ reflexivity | ].
  eexists. split; [ reflexivity | ].
  split.
  - exact (proj1 (falsy_fields_show_fetching someDigits
                    (snd (fetchLocationData seaLevelServices initialState))
                    _ eq_refl) eq_refl).
  - exact (proj2 (proj2 (falsy_fields_show_fetching someDigits
                           (snd (fetchLocationData seaLevelServices initialState))
                           _ eq_refl)) (or_introl eq_refl)).
Defined.

Lemma refreshed_record_stored env st location :
  getCurrentPositionAsync env = Fulfilled location ->
  objectCoercible (getProperty location "coords") = true ->
  locationData (snd (fetchLocationData env st))
  = {| latitude := getProperty (getProperty location "coords") "latitude";
       longitude := getProperty (getProperty location "coords") "longitude";
       altitude :=
         resolvedElevation
           (elevationCall env (getProperty (getProperty location "coords") "latitude")
              (getProperty (getProperty location "coords") "longitude"))
           (getProperty (getProperty location "coords") "altitude");
       accuracy := getProperty (getProperty location "coords") "accuracy";
       address :=
         resolvedAddress
           (reverseGeocodeAsync env
              (getProperty (getProperty location "coords") "latitude")
              (getProperty (getProperty location "coords") "longitude")) |}.
Proof.
  intros Hposition Hcoords.
  destruct (fetchLocationData_run env st) as (st' & -> & _ & _ & Hrecord).
  cbn [snd]. rewrite Hrecord. unfold refreshedRecord. rewrite Hposition.
  cbv zeta. rewrite Hcoords.
  destruct (objectCoercible location) eqn:Hlocation; [ reflexivity | ].
  rewrite (getProperty_nothing _ _ Hlocation) in Hcoords. discriminate Hcoords.
Qed.

(** X19.  When the position carries a numeric latitude and longitude, its
    altitude and accuracy are numbers or absent, and the elevation the
    service reports, if it answers, is a number or absent, the record the
    refresh stores can always be shown: rendering after the refresh
    returns the screen, without the loading line. *)
Theorem well_typed_refresh_renders formatFixed env st location :
  getCurrentPositionAsync env = Fulfilled location ->
  validSample (getProperty location "coords") = true ->
  numberOrNullish (getProperty (getProperty location "coords") "altitude") = true ->
  numberOrNullish (getProperty (getProperty location "coords") "accuracy") = true ->
  (forall response,
      axios_get env (getProperty (getProperty location "coords") "latitude")
        (getProperty (getProperty location "coords") "longitude")
      = Fulfilled response ->
      numberOrNullish (elevationField response) = true) ->
  exists screen,
    render formatFixed (snd (fetchLocationData env st))
    = (Normal screen, snd (fetchLocationData env st)) /\
    loadingText screen = None.
Proof.
  intros Hposition Hvalid Halt Hacc Hservice.
  pose proof (refreshed_record_stored env st location Hposition
                (validSample_coercible _ Hvalid)) as Hrecord.
  pose proof (validSample_requestFormed _ Hvalid) as Hformed.
  destruct (fetchLocationData_run env st) as (st' & Hrun & Hloading & _).
  rewrite Hrun in Hrecord |- *. cbn [snd] in Hrecord |- *.
  assert (Hshown : renderable (locationData st') = true).
  { rewrite Hrecord. unfold renderable. cbn [latitude longitude altitude accuracy].
    unfold validSample in Hvalid. rewrite Hvalid. cbn [andb].
    rewrite (numberOrNullish_shown _ Hacc), andb_true_r.
    apply numberOrNullish_shown.
    unfold elevationCall, attempted. rewrite Hformed.
    unfold resolvedElevation.
    destruct (axios_get env _ _) as [response | reason] eqn:Hlookup;
      [ | exact Halt ].
    specialize (Hservice response eq_refl).
    destruct (elevationField response); cbn [nullish];
      solve [ exact Halt | exact Hservice ]. }
  destruct (render_shown formatFixed st' Hshown) as (screen & Hrender & Hline).
  exists screen. split; [ exact Hrender | ].
  rewrite Hline, Hloading. reflexivity.
Qed.

Lemma well_typed_refresh_renders_witness :
  exists screen,
    render someDigits
      (snd (fetchLocationData
              (services googleplexPosition
                 (Fulfilled (elevationResponse (JSNumber 12.3%float)))
                 (Fulfilled [googleplex]))
              initialState))
    = (Normal screen,
       snd (fetchLocationData
              (services googleplexPosition
                 (Fulfilled (elevationResponse (JSNumber 12.3%float)))
                 (Fulfilled [googleplex]))
              initialState)) /\
    loadingText screen = None.
Proof.
  exact (well_typed_refresh_renders someDigits
           (services googleplexPosition
              (Fulfilled (elevationResponse (JSNumber 12.3%float)))
              (Fulfilled [googleplex]))
           initialState (JSObject [("coords", googleplexSample)])
           eq_refl eq_refl eq_refl eq_refl
           (fun response H =>
              match H in (_ = p)
                    return match p with
                           | Fulfilled r => numberOrNullish (elevationField r) = true
                           | Rejected _ => True
                           end
              with
              | eq_refl => eq_refl
              end)).
Defined.

(** X20.  The refresh stores an elevation without checking that it is a
    number, and the screen calls [toFixed] on it: when the service
    reports a truthy elevation that is not a number (a string, say), the
    refresh itself completes normally, but rendering the record it stored
    throws a [TypeError]. *)
Theorem non_numeric_elevation_breaks_render formatFixed env st location response :
  getCurrentPositionAsync env = Fulfilled location ->
  objectCoercible (getProperty location "coords") = true ->
  axios_get env (getProperty (getProperty location "coords") "latitude")
    (getProperty (getProperty location "coords") "longitude")
  = Fulfilled response ->
  truthy (elevationField response) = true ->
  isNumber (elevationField response) = false ->
  fst (fetchLocationData env st) = Normal tt /\
  exists msg,
    render formatFixed (snd (fetchLocationData env st))
    = (Throw (TypeError msg), snd (fetchLocationData env st)).
Proof.
  intros Hposition Hcoords Hlookup Htruthy Hnumber.
  pose proof (refreshed_record_stored env st location Hposition Hcoords) as Hrecord.
  destruct (fetchLocationData_run env st) as (st' & Hrun & _).
  rewrite Hrun in Hrecord |- *. cbn [fst snd] in Hrecord |- *.
  split; [ reflexivity | ].
  apply render_throws. rewrite Hrecord. unfold renderable.
  cbn [latitude longitude altitude accuracy].
  destruct (requestFormed (getProperty (getProperty location "coords") "latitude")
              (getProperty (getProperty location "coords") "longitude"))
    eqn:Hformed.
  - unfold elevationCall, attempted. rewrite Hformed, Hlookup.
    cbn [resolvedElevation].
    assert (Hkept : nullish (elevationField response)
                      (getProperty (getProperty location "coords") "altitude")
                    = elevationField response).
    { destruct (elevationField response); try discriminate; reflexivity. }
    rewrite Hkept, Htruthy, Hnumber. cbn [negb orb].
    rewrite andb_false_r. reflexivity.
  - rewrite (unformed_request_not_numbers _ _ Hformed). reflexivity.
Qed.

Lemma non_numeric_elevation_breaks_render_witness :
  exists msg,
    render someDigits
      (snd (fetchLocationData
              (services googleplexPosition
                 (Fulfilled (elevationResponse (JSString "high")))
                 (Fulfilled [googleplex]))
              initialState))
    = (Throw (TypeError msg),
       snd (fetchLocationData
              (services googleplexPosition
                 (Fulfilled (elevationResponse (JSString "high")))
                 (Fulfilled [googleplex]))
              initialState)).
Proof.
  exact (proj2 (non_numeric_elevation_breaks_render someDigits
                  (services googleplexPosition
                     (Fulfilled (elevationResponse (JSString "high")))
                     (Fulfilled [googleplex]))
                  initialState (JSObject [("coords", googleplexSample)])
                  (elevationResponse (JSString "high"))
                  eq_refl eq_refl eq_refl eq_refl eq_refl)).
Defined.
